(** * Traffic-light detector (ros/src/tl_detector/tl_detector.py)

    A shallow embedding of the [TLDetector] node: the nearest-candidate
    search [get_closest_waypoint], the resolver [process_traffic_lights]
    and the debounce logic of [image_cb], followed by the properties the
    specification states about them.

    Conventions of the embedding.
    - ROS [float64] fields and Python floats are IEEE binary64 numbers:
      Rocq's primitive [float], with its [sqrt], [<?] and arithmetic.
      [-] and [+] never raise; [e ** 2] and [math.sqrt] are the interpreter's
      [float_pow2] and [math_sqrt], which can. What the C library's [pow]
      returns is a parameter, [Libm]; the general results hold for every
      one; the scenarios are run with [rounded_libm] and come out the same
      for any library that squares their small integers exactly.
    - A Python value that is either [None] or an integer is a [pyidx].
    - A Python exception is a constructor of [exn]; code that can raise
      returns a [result]. The distance computation can: squaring a
      coordinate difference beyond about 1.34e154 is an [OverflowError].
    - [rospy.loginfo], [rospy.logerr] and [print] only write to the log;
      they are left out. *)

From Stdlib Require Import ZArith List String Bool Lia.
From Stdlib Require Import Floats.
Import ListNotations.

Open Scope Z_scope.

(** ** Python values, exceptions and list indexing *)

Inductive pyidx : Type :=
| PyNone
| PyInt (i : Z).

Definition pyidx_eqb (a b : pyidx) : bool :=
  match a, b with
  | PyNone, PyNone => true
  | PyInt i, PyInt j => Z.eqb i j
  | _, _ => false
  end.

Inductive exn : Type :=
| AttributeError
| TypeError
| IndexError
| OverflowError
| ValueError.

Inductive result (A : Type) : Type :=
| Return (a : A)
| Raise (e : exn).

Arguments Return {A} a.
Arguments Raise {A} e.

Definition bind {A B : Type} (r : result A) (k : A -> result B) : result B :=
  match r with
  | Return a => k a
  | Raise e => Raise e
  end.

Notation "x <- r ;; k" := (bind r (fun x => k))
  (at level 61, r at next level, right associativity).

(** [l[i]] of Python 2: [None] is not an index, a negative integer counts
    from the end, anything outside the list raises. *)
Definition py_getitem {A : Type} (l : list A) (i : pyidx) : result A :=
  match i with
  | PyNone => Raise TypeError
  | PyInt n =>
      let len := Z.of_nat (List.length l) in
      let k := if n <? 0 then n + len else n in
      if (0 <=? k) && (k <? len) then
        match nth_error l (Z.to_nat k) with
        | Some a => Return a
        | None => Raise IndexError
        end
      else Raise IndexError
  end.

(** [o.attr] where [o] may be [None]. *)
Definition py_getattr {A : Type} (o : option A) : result A :=
  match o with
  | Some a => Return a
  | None => Raise AttributeError
  end.

(** ** Messages *)

Record Point : Type := { x : float; y : float; z : float }.

Record Quaternion : Type := { qx : float; qy : float; qz : float; qw : float }.

Record Pose : Type := { position : Point; orientation : Quaternion }.

(** [geometry_msgs/PoseStamped]; the header plays no part. *)
Record PoseStamped : Type := { ps_pose : Pose }.

(** Modelled from the spec: the colour constants of [styx_msgs/TrafficLight],
    whose message declaration is not part of the sources. *)
Inductive Color : Type := RED | YELLOW | GREEN | UNKNOWN.

Definition Color_eqb (a b : Color) : bool :=
  match a, b with
  | RED, RED | YELLOW, YELLOW | GREEN, GREEN | UNKNOWN, UNKNOWN => true
  | _, _ => false
  end.

Record TrafficLight : Type := { tl_pose : PoseStamped; tl_state : Color }.

Record Waypoint : Type := { wp_pose : PoseStamped }.

Record Lane : Type := { lane_waypoints : list Waypoint }.

Record Image : Type := { img_data : list Z }.

(** What [get_closest_waypoint] asks of a candidate: [wp.pose.pose]. *)
Class Posed (A : Type) : Type := pose_pose : A -> Pose.

#[export] Instance TrafficLight_Posed : Posed TrafficLight :=
  fun l => ps_pose (tl_pose l).

#[export] Instance Waypoint_Posed : Posed Waypoint :=
  fun w => ps_pose (wp_pose w).

(** ** The node *)

Definition STATE_COUNT_THRESHOLD : Z := 3.

Record TLDetector : Type := {
  pose : option PoseStamped;
  waypoints : option Lane;
  has_image : bool;
  camera_image : option Image;
  lights : list TrafficLight;
  stop_line_positions_poses : list TrafficLight;
  (* every message handed to [upcoming_red_light_pub.publish], oldest first *)
  upcoming_red_light_pub : list Z;
  state : Color;
  last_state : Color;
  last_wp : Z;
  state_count : Z
}.

(** The fields [__init__] sets, for the [stop_line_positions] of the
    configuration. A stop line is a default [TrafficLight()] with [x] and [y]
    filled in; its orientation and state are never read. [has_image] is first
    assigned by [image_cb]. *)
Definition TLDetector_init (stop_line_positions : list (float * float)) : TLDetector :=
  {| pose := None;
     waypoints := None;
     has_image := false;
     camera_image := None;
     lights := [];
     stop_line_positions_poses :=
       map (fun stop =>
              {| tl_pose :=
                   {| ps_pose :=
                        {| position := {| x := fst stop; y := snd stop; z := 0 |};
                           orientation := {| qx := 0; qy := 0; qz := 0; qw := 0 |} |} |};
                 tl_state := RED |})
           stop_line_positions;
     upcoming_red_light_pub := [];
     state := UNKNOWN;
     last_state := UNKNOWN;
     last_wp := -1;
     state_count := 0 |}.

Definition pose_cb (self : TLDetector) (msg : PoseStamped) : TLDetector :=
  {| pose := Some msg;
     waypoints := waypoints self;
     has_image := has_image self;
     camera_image := camera_image self;
     lights := lights self;
     stop_line_positions_poses := stop_line_positions_poses self;
     upcoming_red_light_pub := upcoming_red_light_pub self;
     state := state self;
     last_state := last_state self;
     last_wp := last_wp self;
     state_count := state_count self |}.

Definition waypoints_cb (self : TLDetector) (msg : Lane) : TLDetector :=
  {| pose := pose self;
     waypoints := Some msg;
     has_image := has_image self;
     camera_image := camera_image self;
     lights := lights self;
     stop_line_positions_poses := stop_line_positions_poses self;
     upcoming_red_light_pub := upcoming_red_light_pub self;
     state := state self;
     last_state := last_state self;
     last_wp := last_wp self;
     state_count := state_count self |}.

Definition traffic_cb (self : TLDetector) (msg : list TrafficLight) : TLDetector :=
  {| pose := pose self;
     waypoints := waypoints self;
     has_image := has_image self;
     camera_image := camera_image self;
     lights := msg;
     stop_line_positions_poses := stop_line_positions_poses self;
     upcoming_red_light_pub := upcoming_red_light_pub self;
     state := state self;
     last_state := last_state self;
     last_wp := last_wp self;
     state_count := state_count self |}.

(** ** Float operations that can raise *)

(** The C library behind the interpreter: [libm_pow2 v] is what [pow(v, 2.0)]
    returns for a finite [v > 0] other than 1, and whether it sets [errno]
    to [ERANGE]. *)
Class Libm : Type := libm_pow2 : float -> float * bool.

(** A C library whose [pow] rounds the exact square to nearest and leaves
    [errno] alone. *)
#[export] Instance rounded_libm : Libm := fun v => ((v * v)%float, false).

(** [v ** 2] on a Python float ([float_pow] with exponent 2.0): NaN, the
    infinities, zero and 1 are answered before the C library is asked;
    otherwise [pow] is called on [|v|], [Py_ADJUST_ERANGE1] turns an infinite
    result into a range error and forgives one on a zero result, and a range
    error raises [OverflowError]. *)
Definition float_pow2 {L : Libm} (v : float) : result float :=
  if is_nan v then Return v
  else if is_infinity v then Return (abs v)
  else if (v =? 0)%float then Return 0%float
  else
    let iv := if (v <? 0)%float then (- v)%float else v in
    if (iv =? 1)%float then Return 1%float
    else
      let (ix, erange) := libm_pow2 iv in
      let erange := if erange then negb (ix =? 0)%float else is_infinity ix in
      if erange then Raise OverflowError else Return ix.

(** [math.sqrt]: a NaN result from an argument that is not NaN, or an
    infinite one from a finite argument, is a [ValueError]. *)
Definition math_sqrt (v : float) : result float :=
  let r := sqrt v in
  if is_nan r && negb (is_nan v) then Raise ValueError
  else if is_infinity r && is_finite v then Raise ValueError
  else Return r.

(** ** get_distance_between_poses and get_closest_waypoint *)

Definition get_distance_between_poses {L : Libm} (a b : Pose) : result float :=
  dx2 <- float_pow2 (x (position a) - x (position b)) ;;
  dy2 <- float_pow2 (y (position a) - y (position b)) ;;
  math_sqrt (dx2 + dy2).

Arguments get_distance_between_poses : simpl never.

Definition search_range : float := 400.

(** The [for i, wp in enumerate(waypoints)] loop, from index [i] on, with the
    loop variables [min_dist] and [min_idx]. The "forward" branch computes the
    heading of the car and prints it; it assigns neither variable. *)
Fixpoint closest_loop {L : Libm} {A : Type} `{Posed A}
    (pose : Pose) (mode : option string) (wps : list A) (i : Z)
    (min_dist : float) (min_idx : pyidx) : result pyidx :=
  match wps with
  | [] => Return min_idx
  | wp :: rest =>
      dist <- get_distance_between_poses (pose_pose wp) pose ;;
      if (dist <? min_dist)%float && (dist <? search_range)%float then
        match mode with
        | None => closest_loop pose mode rest (i + 1) dist (PyInt i)
        | Some m =>
            if String.eqb m "forward"
            then closest_loop pose mode rest (i + 1) min_dist min_idx
            else closest_loop pose mode rest (i + 1) min_dist min_idx
        end
      else closest_loop pose mode rest (i + 1) min_dist min_idx
  end.

Definition get_closest_waypoint {L : Libm} {A : Type} `{Posed A}
    (pose : option Pose) (waypoints : option (list A)) (mode : option string)
    : result pyidx :=
  match waypoints, pose with
  | Some wps, Some p => closest_loop p mode wps 0 infinity PyNone
  | _, _ => Return (PyInt (-1))
  end.

(** ** process_traffic_lights *)

Definition no_relevant_light : Z * Color := (-1, UNKNOWN).

Definition process_traffic_lights {L : Libm} (self : TLDetector)
    : result (Z * Color) :=
  match pose self with
  | None => Return no_relevant_light
  | Some self_pose =>
      (* 1. upcoming light position from the current car pose *)
      light_idx <-
        get_closest_waypoint (Some (ps_pose self_pose)) (Some (lights self)) None ;;
      if pyidx_eqb light_idx PyNone then Return no_relevant_light
      else
        (* 2. stop line closest to that light, and the one closest to the car *)
        light <- py_getitem (lights self) light_idx ;;
        stop_line_idx <-
          get_closest_waypoint (Some (pose_pose light))
            (Some (stop_line_positions_poses self)) None ;;
        stop_forward_idx <-
          get_closest_waypoint (Some (ps_pose self_pose))
            (Some (stop_line_positions_poses self)) None ;;
        if negb (pyidx_eqb stop_line_idx stop_forward_idx) then Return no_relevant_light
        else
          (* 3. car waypoint closest to the stop line *)
          stop_line <- py_getitem (stop_line_positions_poses self) stop_line_idx ;;
          lane <- py_getattr (waypoints self) ;;
          stop_waypoint_idx <-
            get_closest_waypoint (Some (pose_pose stop_line))
              (Some (lane_waypoints lane)) None ;;
          match stop_waypoint_idx with
          | PyNone => Return no_relevant_light
          | PyInt wp =>
              light' <- py_getitem (lights self) light_idx ;;
              Return (wp, tl_state light')
          end
  end.

(** ** image_cb *)

Definition set_image (self : TLDetector) (msg : Image) : TLDetector :=
  {| pose := pose self;
     waypoints := waypoints self;
     has_image := true;
     camera_image := Some msg;
     lights := lights self;
     stop_line_positions_poses := stop_line_positions_poses self;
     upcoming_red_light_pub := upcoming_red_light_pub self;
     state := state self;
     last_state := last_state self;
     last_wp := last_wp self;
     state_count := state_count self |}.

(** [self.upcoming_red_light_pub.publish(Int32(v))] *)
Definition publish (self : TLDetector) (v : Z) : TLDetector :=
  {| pose := pose self;
     waypoints := waypoints self;
     has_image := has_image self;
     camera_image := camera_image self;
     lights := lights self;
     stop_line_positions_poses := stop_line_positions_poses self;
     upcoming_red_light_pub := upcoming_red_light_pub self ++ [v];
     state := state self;
     last_state := last_state self;
     last_wp := last_wp self;
     state_count := state_count self |}.

(** Assignment to the four debounce fields at once. *)
Definition set_debounce (self : TLDetector)
    (st lst : Color) (lwp cnt : Z) : TLDetector :=
  {| pose := pose self;
     waypoints := waypoints self;
     has_image := has_image self;
     camera_image := camera_image self;
     lights := lights self;
     stop_line_positions_poses := stop_line_positions_poses self;
     upcoming_red_light_pub := upcoming_red_light_pub self;
     state := st;
     last_state := lst;
     last_wp := lwp;
     state_count := cnt |}.

(** The [if]/[elif]/[else] of [image_cb] and the final
    [self.state_count += 1], on the pair [process_traffic_lights] returned. *)
Definition image_cb_debounce (self : TLDetector) (light_wp : Z) (st : Color)
    : TLDetector :=
  let self1 :=
    if negb (Color_eqb (state self) st) then
      set_debounce self st (last_state self) (last_wp self) 0
    else if STATE_COUNT_THRESHOLD <=? state_count self then
      let light_wp := if Color_eqb st RED then light_wp else -1 in
      publish
        (set_debounce self (state self) (state self) light_wp (state_count self))
        light_wp
    else
      publish self (last_wp self)
  in
  set_debounce self1 (state self1) (last_state self1) (last_wp self1)
    (state_count self1 + 1).

(** How a callback ends: normally, or with an exception that leaves the
    assignments made before it in place. *)
Inductive outcome : Type :=
| Done (self' : TLDetector)
| Raised (e : exn) (self' : TLDetector).

Definition image_cb {L : Libm} (self : TLDetector) (msg : Image) : outcome :=
  let self := set_image self msg in
  match process_traffic_lights self with
  | Raise e => Raised e self
  | Return (light_wp, st) => Done (image_cb_debounce self light_wp st)
  end.

(** The node after a callback, however it ended. *)
Definition after (o : outcome) : TLDetector :=
  match o with
  | Done s => s
  | Raised _ s => s
  end.

(** [image_cb] on the frames of [msgs], one after the other; an exception
    ends the run. *)
Fixpoint image_cb_frames {L : Libm} (self : TLDetector) (msgs : list Image)
    : outcome :=
  match msgs with
  | [] => Done self
  | msg :: rest =>
      match image_cb self msg with
      | Done self' => image_cb_frames self' rest
      | Raised e self' => Raised e self'
      end
  end.

(** ** Scenario A of the specification *)

Definition at_xy (px py : float) : PoseStamped :=
  {| ps_pose :=
       {| position := {| x := px; y := py; z := 0 |};
          (* heading +x: the identity rotation *)
          orientation := {| qx := 0; qy := 0; qz := 0; qw := 1 |} |} |}.

Definition route_A : Lane :=
  {| lane_waypoints :=
       map (fun px => {| wp_pose := at_xy px 0 |})
           [0; 10; 20; 30; 40]%float |}.

Definition scenario (c : Color) : TLDetector :=
  traffic_cb
    (waypoints_cb
       (pose_cb (TLDetector_init [(22, 0)%float]) (at_xy 0 0))
       route_A)
    [ {| tl_pose := at_xy 25 0; tl_state := c |} ].

Definition frame : Image := {| img_data := [] |}.

(** Scenario C: two stop lines; the one nearest the light is not the one
    nearest the car. *)
Definition scenario_C (c : Color) : TLDetector :=
  traffic_cb
    (waypoints_cb
       (pose_cb (TLDetector_init [(5, 0); (95, 0)]%float) (at_xy 0 0))
       route_A)
    [ {| tl_pose := at_xy 100 0; tl_state := c |} ].

(** The node before any route has arrived on /base_waypoints: pose, lights
    and stop lines as in scenario A. *)
Definition scenario_no_route (c : Color) : TLDetector :=
  traffic_cb
    (pose_cb (TLDetector_init [(22, 0)%float]) (at_xy 0 0))
    [ {| tl_pose := at_xy 25 0; tl_state := c |} ].

(** Scenario A mirrored: the car at the origin still heads +x, the light,
    its stop line and the rest of the route lie behind it. *)
Definition scenario_behind (c : Color) : TLDetector :=
  traffic_cb
    (waypoints_cb
       (pose_cb (TLDetector_init [(-22, 0)%float]) (at_xy 0 0))
       {| lane_waypoints :=
            map (fun px => {| wp_pose := at_xy px 0 |})
                [-40; -30; -20; -10; 0]%float |})
    [ {| tl_pose := at_xy (-25) 0; tl_state := c |} ].

(** Scenario A with the light 500 away from the car, outside the search
    range. *)
Definition scenario_far_light (c : Color) : TLDetector :=
  traffic_cb
    (waypoints_cb
       (pose_cb (TLDetector_init [(22, 0)%float]) (at_xy 0 0))
       route_A)
    [ {| tl_pose := at_xy 500 0; tl_state := c |} ].

(** Scenario A with the light so far away that the square of its distance
    is beyond the largest float. *)
Definition scenario_beyond (c : Color) : TLDetector :=
  traffic_cb
    (waypoints_cb
       (pose_cb (TLDetector_init [(22, 0)%float]) (at_xy 0 0))
       route_A)
    [ {| tl_pose := at_xy 1e200 0; tl_state := c |} ].

(** The debounce step on a run of frames that all resolve to colour [c],
    with the waypoint indices [wps] in frame order. *)
Definition debounce_frames (self : TLDetector) (c : Color) (wps : list Z)
    : TLDetector :=
  fold_left (fun s wp => image_cb_debounce s wp c) wps self.

(** What a committing frame publishes. *)
Definition committed (c : Color) (light_wp : Z) : Z :=
  if Color_eqb c RED then light_wp else -1.

(** Four candidates around the origin: two at distance 10, then two at
    distance 5. *)
Definition ring : list Waypoint :=
  map (fun px => {| wp_pose := at_xy px 0 |}) [10; -10; 5; -5]%float.

(** One candidate 500 away from the origin. *)
Definition far_away : list Waypoint := [ {| wp_pose := at_xy 500 0 |} ].



(** The node with the car turned to orientation [q], everything else as it
    is. *)
Definition turn (q : Quaternion) (self : TLDetector) : TLDetector :=
  match pose self with
  | None => self
  | Some ps =>
      pose_cb self
        {| ps_pose := {| position := position (ps_pose ps); orientation := q |} |}
  end.

(** ** Runs of the node *)

(** The debounce step on a run of frames, each with the pair the resolver
    returned for it. *)
Definition debounce_run (self : TLDetector) (raw : list (Z * Color)) : TLDetector :=
  fold_left (fun s r => image_cb_debounce s (fst r) (snd r)) raw self.

(** Number of frames of colour [c] at the head of [raw]. *)
Fixpoint leading (c : Color) (raw : list (Z * Color)) : Z :=
  match raw with
  | r :: rest => if Color_eqb (snd r) c then 1 + leading c rest else 0
  | [] => 0
  end.

(** Number of frames of colour [c] at the end of [raw]. *)
Definition streak (c : Color) (raw : list (Z * Color)) : Z :=
  leading c (rev raw).

(** The colour of the last frame of [raw]; with no frame yet, [UNKNOWN], the
    value [__init__] gives [self.state]. *)
Definition observed (raw : list (Z * Color)) : Color :=
  match rev raw with
  | r :: _ => snd r
  | [] => UNKNOWN
  end.

(** The fields the debounce logic reads and writes. *)
Definition debounce_view (self : TLDetector)
    : Color * Color * Z * Z * list Z :=
  (state self, last_state self, last_wp self, state_count self,
   upcoming_red_light_pub self).

(** What the node can become: constructed for a configuration, then any
    callbacks in any order. A callback that raised leaves the node as it was
    when the exception occurred. *)
Inductive reachable {L : Libm} (config : list (float * float))
    : TLDetector -> Prop :=
| reach_init : reachable config (TLDetector_init config)
| reach_pose (self : TLDetector) (msg : PoseStamped) :
    reachable config self -> reachable config (pose_cb self msg)
| reach_waypoints (self : TLDetector) (msg : Lane) :
    reachable config self -> reachable config (waypoints_cb self msg)
| reach_traffic (self : TLDetector) (msg : list TrafficLight) :
    reachable config self -> reachable config (traffic_cb self msg)
| reach_image (self : TLDetector) (msg : Image) :
    reachable config self -> reachable config (after (image_cb self msg)).

(** The exception a callback ended with, if any. *)
Definition raised (o : outcome) : option exn :=
  match o with
  | Done _ => None
  | Raised e _ => Some e
  end.

(** * Properties *)

(** ** The order [<?] of binary64 numbers *)

Ltac order_cases :=
  repeat match goal with
  | |- context [Pos.compare_cont Eq ?a ?b] =>
      change (Pos.compare_cont Eq a b) with (Pos.compare a b) in *
  | H : context [Pos.compare_cont Eq ?a ?b] |- _ =>
      change (Pos.compare_cont Eq a b) with (Pos.compare a b) in *
  | |- context [Z.compare ?a ?b] => destruct (Z.compare_spec a b)
  | H : context [Z.compare ?a ?b] |- _ => destruct (Z.compare_spec a b)
  | |- context [Pos.compare ?a ?b] => destruct (Pos.compare_spec a b)
  | H : context [Pos.compare ?a ?b] |- _ => destruct (Pos.compare_spec a b)
  end.

Ltac by_float_cases a b c :=
  destruct a as [[]|[]| |[] ? ?], b as [[]|[]| |[] ? ?], c as [[]|[]| |[] ? ?];
  cbn; try congruence; intros ? ?;
  order_cases; subst; cbn in *; try congruence; try lia.

Lemma SFcompare_lt_trans (a b c : spec_float) :
  SFcompare a b = Some Lt -> SFcompare b c = Some Lt -> SFcompare a c = Some Lt.
Proof. by_float_cases a b c. Qed.

Lemma SFcompare_eq_lt (a b c : spec_float) :
  SFcompare a b = Some Eq -> SFcompare b c = Some Lt -> SFcompare a c = Some Lt.
Proof. by_float_cases a b c. Qed.

Lemma SFcompare_irrefl (a : spec_float) : SFcompare a a <> Some Lt.
Proof.
  destruct a as [[]|[]| |[] ? ?]; cbn; try congruence;
    order_cases; cbn; try congruence; lia.
Qed.

Lemma ltb_trans (a b c : float) :
  (a <? b)%float = true -> (b <? c)%float = true -> (a <? c)%float = true.
Proof.
  rewrite !ltb_spec. unfold SFltb.
  destruct (SFcompare (Prim2SF a) (Prim2SF b)) as [[]|] eqn:Hab; try discriminate.
  destruct (SFcompare (Prim2SF b) (Prim2SF c)) as [[]|] eqn:Hbc; try discriminate.
  now rewrite (SFcompare_lt_trans _ _ _ Hab Hbc).
Qed.

Lemma ltb_irrefl (a : float) : (a <? a)%float = false.
Proof.
  rewrite ltb_spec. unfold SFltb.
  destruct (SFcompare (Prim2SF a) (Prim2SF a)) as [[]|] eqn:E; try reflexivity.
  now apply SFcompare_irrefl in E.
Qed.

Lemma ltb_asym (a b : float) : (a <? b)%float = true -> (b <? a)%float = false.
Proof.
  intros Hab. destruct (b <? a)%float eqn:Hba; [|reflexivity].
  pose proof (ltb_trans _ _ _ Hab Hba) as E. now rewrite ltb_irrefl in E.
Qed.

Lemma eqb_ltb_trans (a b c : float) :
  (a =? b)%float = true -> (b <? c)%float = true -> (a <? c)%float = true.
Proof.
  rewrite eqb_spec, !ltb_spec. unfold SFltb, SFeqb.
  destruct (SFcompare (Prim2SF a) (Prim2SF b)) as [[]|] eqn:Hab; try discriminate.
  destruct (SFcompare (Prim2SF b) (Prim2SF c)) as [[]|] eqn:Hbc; try discriminate.
  now rewrite (SFcompare_eq_lt _ _ _ Hab Hbc).
Qed.


(** ** Python indexing *)

Lemma pyidx_eqb_eq (a b : pyidx) : pyidx_eqb a b = true <-> a = b.
Proof.
  destruct a, b; cbn; split; try congruence; try discriminate.
  - intros E. apply Z.eqb_eq in E. now subst.
  - intros E. injection E as ->. apply Z.eqb_refl.
Qed.

Lemma pyidx_eqb_neq (a b : pyidx) : pyidx_eqb a b = false <-> a <> b.
Proof.
  rewrite <- pyidx_eqb_eq. destruct (pyidx_eqb a b); split; congruence.
Qed.

Lemma py_getitem_nth {A : Type} (l : list A) (k : nat) (a : A) :
  nth_error l k = Some a -> py_getitem l (PyInt (Z.of_nat k)) = Return a.
Proof.
  intros E. assert (k < List.length l)%nat as Hk
    by (apply nth_error_Some; congruence).
  unfold py_getitem.
  destruct (Z.ltb_spec (Z.of_nat k) 0); [lia|].
  destruct (Z.leb_spec 0 (Z.of_nat k)); [|lia].
  destruct (Z.ltb_spec (Z.of_nat k) (Z.of_nat (List.length l))); [|lia].
  cbn. now rewrite Nat2Z.id, E.
Qed.

(** ** The float operations *)

Lemma math_sqrt_return (v d : float) :
  math_sqrt v = Return d -> d = sqrt v.
Proof.
  unfold math_sqrt. destruct (_ && _); [discriminate|].
  destruct (_ && _); [discriminate|]. now intros [= <-].
Qed.

Lemma float_pow2_raise {L : Libm} (v : float) (e : exn) :
  float_pow2 v = Raise e -> e = OverflowError.
Proof.
  unfold float_pow2.
  destruct (is_nan v); [discriminate|].
  destruct (is_infinity v); [discriminate|].
  destruct (v =? 0)%float; [discriminate|].
  destruct (_ =? 1)%float; [discriminate|].
  destruct (libm_pow2 _) as [ix erange].
  destruct (if erange then _ else _); [now intros [= <-] | discriminate].
Qed.

Lemma math_sqrt_raise (v : float) (e : exn) :
  math_sqrt v = Raise e -> e = ValueError.
Proof.
  unfold math_sqrt. destruct (_ && _); [now intros [= <-]|].
  destruct (_ && _); [now intros [= <-] | discriminate].
Qed.

(** The distance computation raises nothing but these two. *)
Lemma get_distance_between_poses_raise {L : Libm} (a b : Pose) (e : exn) :
  get_distance_between_poses a b = Raise e ->
  e = OverflowError \/ e = ValueError.
Proof.
  unfold get_distance_between_poses.
  destruct (float_pow2 (x (position a) - x (position b))) as [dx2|e1] eqn:E1;
    cbn [bind]; [|intros [= <-]; left; exact (float_pow2_raise _ _ E1)].
  destruct (float_pow2 (y (position a) - y (position b))) as [dy2|e2] eqn:E2;
    cbn [bind]; [|intros [= <-]; left; exact (float_pow2_raise _ _ E2)].
  intros E. right. exact (math_sqrt_raise _ _ E).
Qed.

(** ** The search loop *)

Section Closest.

Context {L : Libm} {A : Type} `{Posed A}.
Variable p : Pose.

(** The distance the loop computes for candidate [wp]. *)
Local Abbreviation dist wp := (get_distance_between_poses (pose_pose wp) p).

(** One turn of the loop. *)
Lemma closest_loop_cons (mode : option string) (w : A) (rest : list A)
    (i : Z) (m : float) (idx : pyidx) :
  closest_loop p mode (w :: rest) i m idx
  = (d <- dist w ;;
     if (d <? m)%float && (d <? search_range)%float then
       match mode with
       | None => closest_loop p mode rest (i + 1) d (PyInt i)
       | Some _ => closest_loop p mode rest (i + 1) m idx
       end
     else closest_loop p mode rest (i + 1) m idx).
Proof.
  cbn [closest_loop]. destruct (dist w) as [d|e]; [|reflexivity]. cbn [bind].
  destruct (_ && _); [|reflexivity].
  destruct mode as [s|]; [|reflexivity]. now destruct (String.eqb s "forward").
Qed.

(** The loop raises what the distance computation of a candidate raises. *)
Lemma closest_loop_raise (mode : option string) (wps : list A) (e : exn) :
  forall (i : Z) (m : float) (idx : pyidx),
    closest_loop p mode wps i m idx = Raise e ->
    exists wp : A, In wp wps /\ dist wp = Raise e.
Proof.
  induction wps as [|w rest IH]; intros i m idx; [discriminate|].
  rewrite closest_loop_cons.
  destruct (dist w) as [d|e'] eqn:Ed; cbn [bind].
  - intros E.
    destruct ((d <? m)%float && (d <? search_range)%float); [destruct mode|];
      (destruct (IH _ _ _ E) as (wp & Hin & Hwp);
       exists wp; split; [now right | exact Hwp]).
  - intros [= <-]. exists w. split; [now left | exact Ed].
Qed.

(** When it returns, the distance of every candidate has been computed. *)
Lemma closest_loop_return (mode : option string) (wps : list A) (r : pyidx) :
  forall (i : Z) (m : float) (idx : pyidx),
    closest_loop p mode wps i m idx = Return r ->
    forall wp : A, In wp wps -> exists d : float, dist wp = Return d.
Proof.
  induction wps as [|w rest IH]; intros i m idx E wp Hin; [destruct Hin|].
  rewrite closest_loop_cons in E.
  destruct (dist w) as [d|e'] eqn:Ed; cbn [bind] in E; [|discriminate].
  destruct Hin as [<- | Hin]; [eauto|].
  destruct ((d <? m)%float && (d <? search_range)%float); [destruct mode|];
    exact (IH _ _ _ E wp Hin).
Qed.

(** And it returns when every distance can be computed. *)
Lemma closest_loop_total (mode : option string) (wps : list A) :
  (forall wp : A, In wp wps -> exists d : float, dist wp = Return d) ->
  forall (i : Z) (m : float) (idx : pyidx),
    exists r : pyidx, closest_loop p mode wps i m idx = Return r.
Proof.
  induction wps as [|w rest IH]; intros Hall i m idx; [now exists idx|].
  rewrite closest_loop_cons.
  destruct (Hall w) as [d ->]; [now left|]. cbn [bind].
  assert (forall wp : A, In wp rest -> exists d : float, dist wp = Return d)
    as Hrest by (intros wp Hin; apply Hall; now right).
  destruct (_ && _); [destruct mode|]; apply (IH Hrest).
Qed.

(** Whatever the mode, the loop hands back the [min_idx] it was given or the
    index of a candidate it has seen strictly inside the search range. *)
Lemma closest_loop_within (mode : option string) (wps : list A) (r : pyidx) :
  forall (i : Z) (m : float) (idx : pyidx),
    closest_loop p mode wps i m idx = Return r ->
    r = idx \/
    exists (k : nat) (wp : A) (d : float),
      r = PyInt (i + Z.of_nat k) /\
      nth_error wps k = Some wp /\
      dist wp = Return d /\
      (d <? search_range)%float = true.
Proof.
  induction wps as [|w rest IH]; intros i m idx; [intros [= <-]; now left|].
  rewrite closest_loop_cons.
  destruct (dist w) as [d|e'] eqn:Ed; cbn [bind]; [|discriminate].
  assert (forall m' idx',
    closest_loop p mode rest (i + 1) m' idx' = Return r ->
    r = idx' \/
    exists (k : nat) (wp : A) (d : float),
      r = PyInt (i + Z.of_nat k) /\
      nth_error (w :: rest) k = Some wp /\
      dist wp = Return d /\
      (d <? search_range)%float = true) as IH'.
  { intros m' idx' E.
    destruct (IH _ _ _ E) as [-> | (k & wp & d' & -> & Hk & Hd & Hr')];
      [now left|right]. exists (S k), wp, d'. repeat split; auto. f_equal. lia. }
  destruct (d <? m)%float eqn:Hm; cbn [andb]; [|exact (IH' _ _)].
  destruct (d <? search_range)%float eqn:Hr; [|exact (IH' _ _)].
  destruct mode as [s|]; [exact (IH' _ _)|].
  intros E. destruct (IH' _ _ E) as [-> | Hex]; [|now right].
  right. exists 0%nat, w, d. repeat split; auto. f_equal. lia.
Qed.


(** With [mode = None], when the loop returns: either no candidate of [wps]
    is both below [m] and inside the range, and [min_idx] is unchanged; or
    the loop returns the first candidate among those of least distance. *)
Lemma closest_loop_nearest (wps : list A) (r : pyidx) :
  forall (i : Z) (m : float) (idx : pyidx),
    closest_loop p None wps i m idx = Return r ->
    (r = idx /\
     forall (k : nat) (wp : A), nth_error wps k = Some wp ->
       exists d : float,
         dist wp = Return d /\
         (d <? m)%float && (d <? search_range)%float = false)
    \/
    exists (k : nat) (wp : A) (d : float),
      r = PyInt (i + Z.of_nat k) /\
      nth_error wps k = Some wp /\
      dist wp = Return d /\
      (d <? m)%float = true /\
      (d <? search_range)%float = true /\
      (forall (j : nat) (wj : A), nth_error wps j = Some wj ->
         exists dj : float,
           dist wj = Return dj /\ (dj <? d)%float = false) /\
      (forall (j : nat) (wj : A) (dj : float), nth_error wps j = Some wj ->
         dist wj = Return dj -> (dj =? d)%float = true -> (k <= j)%nat).
Proof.
  induction wps as [|w rest IH]; intros i m idx.
  { intros [= <-]. left. split; [reflexivity|]. intros [|k] wp; discriminate. }
  rewrite closest_loop_cons.
  destruct (dist w) as [d|e'] eqn:Ed; cbn [bind]; [|discriminate].
  destruct ((d <? m)%float && (d <? search_range)%float) eqn:Hc; intros E.
  - apply andb_true_iff in Hc as [Hm Hr]. right.
    destruct (IH _ _ _ E)
      as [[-> Hno] | (k & wp & d' & -> & Hk & Hd & Hlt & Hin & Hmin & Htie)].
    + exists 0%nat, w, d. repeat split; auto.
      * f_equal. lia.
      * intros [|j] wj Hj; cbn in Hj.
        -- injection Hj as <-. exists d. split; [exact Ed | apply ltb_irrefl].
        -- destruct (Hno j wj Hj) as (dj & Hdj & Hbeat). exists dj.
           split; [exact Hdj|].
           destruct (dj <? d)%float eqn:Hjw; [|reflexivity].
           now rewrite (ltb_trans _ _ _ Hjw Hr) in Hbeat.
      * intros; lia.
    + exists (S k), wp, d'. repeat split; auto.
      * f_equal. lia.
      * exact (ltb_trans _ _ _ Hlt Hm).
      * intros [|j] wj Hj; cbn in Hj.
        -- injection Hj as <-. exists d. split; [exact Ed | now apply ltb_asym].
        -- eauto.
      * intros [|j] wj dj Hj Hdj Heq; cbn in Hj.
        -- injection Hj as <-. rewrite Ed in Hdj. injection Hdj as <-.
           pose proof (eqb_ltb_trans _ _ _ Heq Hlt) as E'.
           now rewrite ltb_irrefl in E'.
        -- specialize (Htie j wj dj Hj Hdj Heq). lia.
  - destruct (IH _ _ _ E)
      as [[-> Hno] | (k & wp & d' & -> & Hk & Hd & Hlt & Hin & Hmin & Htie)].
    + left. split; [reflexivity|]. intros [|j] wj Hj; cbn in Hj.
      * injection Hj as <-. now exists d.
      * eauto.
    + right. exists (S k), wp, d'. repeat split; auto.
      * f_equal. lia.
      * intros [|j] wj Hj; cbn in Hj.
        -- injection Hj as <-. exists d. split; [exact Ed|].
           destruct (d <? d')%float eqn:Hw; [|reflexivity].
           now rewrite (ltb_trans _ _ _ Hw Hlt), (ltb_trans _ _ _ Hw Hin) in Hc.
        -- eauto.
      * intros [|j] wj dj Hj Hdj Heq; cbn in Hj.
        -- injection Hj as <-. rewrite Ed in Hdj. injection Hdj as <-.
           now rewrite (eqb_ltb_trans _ _ _ Heq Hlt), (eqb_ltb_trans _ _ _ Heq Hin) in Hc.
        -- specialize (Htie j wj dj Hj Hdj Heq). lia.
Qed.

End Closest.
(** ** get_closest_waypoint *)

Section GetClosestWaypoint.

Context {L : Libm} {A : Type} `{Posed A}.


(** C8: an index returned for a reference pose and a candidate list is the
    index of a candidate whose computed distance from the reference is
    strictly below the search range of 400, so never one that exceeds it. *)
Theorem get_closest_waypoint_within_range
    (p : Pose) (wps : list A) (mode : option string) (i : Z) :
  get_closest_waypoint (Some p) (Some wps) mode = Return (PyInt i) ->
  exists (wp : A) (d : float),
    py_getitem wps (PyInt i) = Return wp /\
    get_distance_between_poses (pose_pose wp) p = Return d /\
    (d <? search_range)%float = true /\
    (search_range <? d)%float = false.
Proof.
  unfold get_closest_waypoint. intros E.
  destruct (closest_loop_within p mode wps _ _ _ _ E)
    as [E' | (k & wp & d & E' & Hk & Hd & Hr)]; [discriminate|].
  injection E' as ->. exists wp, d.
  split; [now apply py_getitem_nth|].
  split; [exact Hd | split; [exact Hr | now apply ltb_asym]].
Qed.


(** C10, as the code has it: an empty candidate list gives [None], and so
    does a list of candidates whose distances can all be computed and are
    not inside the search range; a missing reference pose gives the integer
    [-1], which is not [None]. *)
Theorem get_closest_waypoint_no_match
    (p : Pose) (wps : list A) (mode : option string) :
  (forall wp : A, In wp wps ->
     exists d : float,
       get_distance_between_poses (pose_pose wp) p = Return d /\
       (d <? search_range)%float = false) ->
  get_closest_waypoint (Some p) (Some (@nil A)) mode = Return PyNone /\
  get_closest_waypoint (Some p) (Some wps) mode = Return PyNone /\
  get_closest_waypoint None (Some wps) mode = Return (PyInt (-1)) /\
  PyInt (-1) <> PyNone.
Proof.
  intros Hfar. repeat split; try discriminate.
  unfold get_closest_waypoint.
  destruct (closest_loop_total p mode wps) with (i := 0) (m := infinity)
    (idx := PyNone) as [r E].
  { intros wp Hin. destruct (Hfar wp Hin) as (d & Hd & _). eauto. }
  rewrite E. f_equal.
  destruct (closest_loop_within p mode wps r _ _ _ E)
    as [E' | (k & wp & d & _ & Hk & Hd & Hr)]; [exact E'|].
  apply nth_error_In in Hk. destruct (Hfar wp Hk) as (d' & Hd' & Hr').
  rewrite Hd in Hd'. injection Hd' as <-. congruence.
Qed.

End GetClosestWaypoint.

Lemma get_closest_waypoint_within_range_witness :
  exists (wp : Waypoint) (d : float),
    py_getitem ring (PyInt 2) = Return wp /\
    get_distance_between_poses (pose_pose wp) (ps_pose (at_xy 0 0)) = Return d /\
    (d <? search_range)%float = true /\
    (search_range <? d)%float = false.
Proof.
  apply (get_closest_waypoint_within_range (ps_pose (at_xy 0 0)) ring None 2).
  reflexivity.
Defined.




Lemma get_closest_waypoint_no_match_witness :
  get_closest_waypoint (Some (ps_pose (at_xy 0 0))) (Some (@nil Waypoint)) None
    = Return PyNone /\
  get_closest_waypoint (Some (ps_pose (at_xy 0 0))) (Some far_away) None
    = Return PyNone /\
  get_closest_waypoint None (Some far_away) None = Return (PyInt (-1)) /\
  PyInt (-1) <> PyNone.
Proof.
  apply (get_closest_waypoint_no_match (ps_pose (at_xy 0 0)) far_away None).
  intros wp [<- | []]. exists 500%float. split; reflexivity.
Defined.

(** C10 as stated fails: the three failure cases do not share one result. *)
Lemma get_closest_waypoint_no_match_differs :
  ~ (get_closest_waypoint (Some (ps_pose (at_xy 0 0))) (Some (@nil Waypoint)) None
       = get_closest_waypoint None (Some far_away) None /\
     get_closest_waypoint None (Some far_away) None
       = get_closest_waypoint (Some (ps_pose (at_xy 0 0))) (Some far_away) None).
Proof. intros [E _]. discriminate E. Qed.

Example ring_nearest :
  get_closest_waypoint (Some (ps_pose (at_xy 0 0))) (Some ring) None
  = Return (PyInt 2).
Proof. reflexivity. Qed.
(** ** process_traffic_lights *)

Lemma process_traffic_lights_no_pose {L : Libm} (self : TLDetector) :
  pose self = None -> process_traffic_lights self = Return no_relevant_light.
Proof. unfold process_traffic_lights. now intros ->. Qed.

(** The search reads the position of the reference and never its
    orientation. *)
Lemma closest_loop_position {L : Libm} {A : Type} `{Posed A}
    (p : Pose) (mode : option string) (q : Quaternion) (wps : list A) :
  forall (i : Z) (m : float) (idx : pyidx),
    closest_loop {| position := position p; orientation := q |} mode wps i m idx
    = closest_loop p mode wps i m idx.
Proof.
  induction wps as [|w rest IH]; intros i m idx; [reflexivity|].
  rewrite !closest_loop_cons.
  change (get_distance_between_poses (pose_pose w)
            {| position := position p; orientation := q |})
    with (get_distance_between_poses (pose_pose w) p).
  destruct (get_distance_between_poses (pose_pose w) p); [|reflexivity].
  cbn [bind]. now rewrite !IH.
Qed.

Lemma get_closest_waypoint_position {L : Libm} {A : Type} `{Posed A}
    (p : Pose) (mode : option string) (q : Quaternion) (wps : list A) :
  get_closest_waypoint (Some {| position := position p; orientation := q |})
    (Some wps) mode
  = get_closest_waypoint (Some p) (Some wps) mode.
Proof. apply closest_loop_position. Qed.

(** The resolver reads the position of the car and never its orientation. *)
Lemma process_traffic_lights_ignores_heading {L : Libm}
    (q : Quaternion) (self : TLDetector) :
  process_traffic_lights (turn q self) = process_traffic_lights self.
Proof.
  unfold turn. destruct (pose self) as [ps|] eqn:E; [|reflexivity].
  unfold process_traffic_lights. rewrite E.
  cbn [pose pose_cb lights stop_line_positions_poses waypoints ps_pose].
  rewrite (get_closest_waypoint_position (ps_pose ps) None q).
  destruct (get_closest_waypoint (Some (ps_pose ps)) (Some (lights self)) None)
    as [light_idx|]; [|reflexivity]. cbn [bind].
  destruct (pyidx_eqb light_idx PyNone); [reflexivity|].
  destruct (py_getitem (lights self) light_idx) as [light|]; [|reflexivity].
  cbn [bind].
  destruct (get_closest_waypoint (Some (pose_pose light))
              (Some (stop_line_positions_poses self)) None); [|reflexivity].
  cbn [bind].
  now rewrite (get_closest_waypoint_position (ps_pose ps) None q).
Qed.

(** The image plays no part in the resolution. *)
Lemma process_traffic_lights_set_image {L : Libm} (self : TLDetector) (msg : Image) :
  process_traffic_lights (set_image self msg) = process_traffic_lights self.
Proof. reflexivity. Qed.

(** C7: once a light is matched, a stop-line index found from the light that
    differs from the one found from the car makes the resolver return
    "no relevant light", [(-1, UNKNOWN)]. *)
Theorem process_traffic_lights_stop_line_mismatch {L : Libm}
    (self : TLDetector) (car : PoseStamped) (i : Z) (light : TrafficLight)
    (stop_line_idx stop_forward_idx : pyidx) :
  pose self = Some car ->
  get_closest_waypoint (Some (ps_pose car)) (Some (lights self)) None
    = Return (PyInt i) ->
  py_getitem (lights self) (PyInt i) = Return light ->
  get_closest_waypoint (Some (pose_pose light))
    (Some (stop_line_positions_poses self)) None = Return stop_line_idx ->
  get_closest_waypoint (Some (ps_pose car))
    (Some (stop_line_positions_poses self)) None = Return stop_forward_idx ->
  stop_line_idx <> stop_forward_idx ->
  process_traffic_lights self = Return (-1, UNKNOWN).
Proof.
  intros Hpose Hidx Hlight Hline Hforward Hne. unfold process_traffic_lights.
  rewrite Hpose, Hidx. cbn [pyidx_eqb bind]. rewrite Hlight. cbn [bind].
  rewrite Hline. cbn [bind]. rewrite Hforward. cbn [bind].
  apply pyidx_eqb_neq in Hne. now rewrite Hne.
Qed.

Lemma process_traffic_lights_stop_line_mismatch_witness :
  process_traffic_lights (scenario_C RED) = Return (-1, UNKNOWN).
Proof.
  apply (process_traffic_lights_stop_line_mismatch
           (scenario_C RED) (at_xy 0 0) 0 {| tl_pose := at_xy 100 0; tl_state := RED |}
           (PyInt 1) (PyInt 0));
    try reflexivity.
  discriminate.
Defined.

(** C2, at a node that has a pose, a light and a stop line but has not yet
    received a route: the resolver raises [AttributeError] at
    [self.waypoints.waypoints], and so does [image_cb], before it
    publishes anything. *)
Theorem process_traffic_lights_no_route_raises :
  pose (scenario_no_route RED) <> None /\
  waypoints (scenario_no_route RED) = None /\
  process_traffic_lights (scenario_no_route RED) = Raise AttributeError /\
  image_cb (scenario_no_route RED) frame
    = Raised AttributeError (set_image (scenario_no_route RED) frame).
Proof. repeat split; try reflexivity. discriminate. Qed.

(** C3, with the car at the origin heading +x and the only light behind it,
    at x = -25: the light is matched all the same and the resolver returns
    waypoint 2 with RED; all three searches run with [mode = None]. *)
Theorem process_traffic_lights_light_behind :
  orientation (ps_pose (at_xy 0 0)) = {| qx := 0; qy := 0; qz := 0; qw := 1 |} /\
  get_closest_waypoint (Some (ps_pose (at_xy 0 0)))
    (Some (lights (scenario_behind RED))) None = Return (PyInt 0) /\
  get_closest_waypoint (Some (ps_pose (at_xy 0 0)))
    (Some (lights (scenario_behind RED))) (Some "forward"%string)
    = Return PyNone /\
  process_traffic_lights (scenario_behind RED) = Return (2, RED).
Proof. repeat split; reflexivity. Qed.

(** Equal indices pass the consistency check also when both are [None]: with
    no stop line inside the search range the resolver indexes the stop lines
    by [None]. *)
Example no_stop_line_in_range_raises :
  process_traffic_lights
    (traffic_cb
       (waypoints_cb (pose_cb (TLDetector_init [(1000, 0)%float]) (at_xy 0 0)) route_A)
       [ {| tl_pose := at_xy 25 0; tl_state := RED |} ])
  = Raise TypeError.
Proof. reflexivity. Qed.

(** Scenario B: a GREEN light is committed as "no stop". *)
Example scenario_B_green :
  process_traffic_lights (scenario GREEN) = Return (2, GREEN) /\
  upcoming_red_light_pub
    (after (image_cb_frames (scenario GREEN) [frame; frame; frame; frame]))
  = [-1; -1; -1].
Proof. split; reflexivity. Qed.

(** Scenario C publishes "no stop" whatever the colour. *)
Example scenario_C_no_stop :
  process_traffic_lights (scenario_C GREEN) = Return (-1, UNKNOWN) /\
  upcoming_red_light_pub
    (after (image_cb_frames (scenario_C RED) [frame; frame; frame; frame; frame]))
  = [-1; -1; -1; -1; -1].
Proof. split; reflexivity. Qed.

(** C1 as stated fails: after three identical frames of scenario A the index
    2 is neither the last committed index nor among the published ones. *)
Lemma scenario_A_three_frames_not_published :
  ~ (exists s3 : TLDetector,
       image_cb_frames (scenario RED) [frame; frame; frame] = Done s3 /\
       (last_wp s3 = 2 \/ In 2 (upcoming_red_light_pub s3))).
Proof.
  intros (s3 & E & Hpub). vm_compute in E. injection E as <-.
  cbn in Hpub. destruct Hpub as [Hpub | [Hpub | [Hpub | []]]]; discriminate.
Qed.

(** C1, as the code has it: in scenario A the resolver returns waypoint 2
    with RED; the first frame publishes nothing, the second and third
    publish -1, and the fourth identical frame publishes 2. *)
Theorem scenario_A_red :
  process_traffic_lights (scenario RED) = Return (2, RED) /\
  (exists s3 : TLDetector,
     image_cb_frames (scenario RED) [frame; frame; frame] = Done s3 /\
     upcoming_red_light_pub s3 = [-1; -1] /\ last_wp s3 = -1) /\
  (exists s4 : TLDetector,
     image_cb_frames (scenario RED) [frame; frame; frame; frame] = Done s4 /\
     upcoming_red_light_pub s4 = [-1; -1; 2] /\ last_wp s4 = 2).
Proof.
  split; [reflexivity|].
  split; eexists; (split; [vm_compute; reflexivity | split; reflexivity]).
Qed.

(** The scenarios do not hang on [rounded_libm]: a C library that returns
    the exact square of the few small integers involved, without a range
    error, gives the same answers. *)
Ltac with_exact_squares HL :=
  cbv;
  repeat (match goal with
          | |- context [?L ?v] =>
              rewrite (HL v) by (cbn; repeat (first [left; reflexivity | right]))
          end; cbv);
  reflexivity.

Lemma scenario_any_libm (L : Libm) (c : Color) :
  (forall v : float, In v [2; 3; 8; 12; 18; 22; 25]%float ->
     L v = ((v * v)%float, false)) ->
  @process_traffic_lights L (scenario c) = Return (2, c).
Proof. intros HL. with_exact_squares HL. Qed.

Lemma scenario_no_route_any_libm (L : Libm) (c : Color) :
  (forall v : float, In v [3; 22; 25]%float ->
     L v = ((v * v)%float, false)) ->
  @process_traffic_lights L (scenario_no_route c) = Raise AttributeError.
Proof. intros HL. with_exact_squares HL. Qed.

Lemma scenario_behind_any_libm (L : Libm) (c : Color) :
  (forall v : float, In v [2; 3; 8; 12; 18; 22; 25]%float ->
     L v = ((v * v)%float, false)) ->
  @process_traffic_lights L (scenario_behind c) = Return (2, c).
Proof. intros HL. with_exact_squares HL. Qed.

(** ** image_cb *)

Lemma Color_eqb_eq (a b : Color) : Color_eqb a b = true <-> a = b.
Proof. destruct a, b; cbn; split; congruence. Qed.

Lemma Color_eqb_refl (c : Color) : Color_eqb c c = true.
Proof. now apply Color_eqb_eq. Qed.

Lemma Color_eqb_neq (a b : Color) : a <> b -> Color_eqb a b = false.
Proof.
  intros Hne. destruct (Color_eqb a b) eqn:E; [|reflexivity].
  now apply Color_eqb_eq in E.
Qed.

(** The three branches of the debounce step. *)
Lemma image_cb_debounce_changed (self : TLDetector) (light_wp : Z) (c : Color) :
  state self <> c ->
  image_cb_debounce self light_wp c
  = set_debounce self c (last_state self) (last_wp self) 1.
Proof.
  intros Hne. unfold image_cb_debounce. now rewrite (Color_eqb_neq _ _ Hne).
Qed.

Lemma image_cb_debounce_waiting (self : TLDetector) (light_wp : Z) (c : Color) :
  state self = c ->
  state_count self < STATE_COUNT_THRESHOLD ->
  image_cb_debounce self light_wp c
  = set_debounce (publish self (last_wp self))
      c (last_state self) (last_wp self) (state_count self + 1).
Proof.
  intros <- Hlt. unfold image_cb_debounce. rewrite Color_eqb_refl. cbn [negb].
  destruct (Z.leb_spec STATE_COUNT_THRESHOLD (state_count self)); [lia|reflexivity].
Qed.

Lemma image_cb_debounce_commit (self : TLDetector) (light_wp : Z) (c : Color) :
  state self = c ->
  STATE_COUNT_THRESHOLD <= state_count self ->
  image_cb_debounce self light_wp c
  = set_debounce (publish self (committed c light_wp))
      c c (committed c light_wp) (state_count self + 1).
Proof.
  intros <- Hge. unfold image_cb_debounce. rewrite Color_eqb_refl. cbn [negb].
  destruct (Z.leb_spec STATE_COUNT_THRESHOLD (state_count self)); [reflexivity|lia].
Qed.

Lemma last_cons {T : Type} (l : list T) :
  forall a d : T, last (a :: l) d = last l a.
Proof.
  induction l as [|b l IH]; intros a d; [reflexivity|].
  change (last (a :: b :: l) d) with (last (b :: l) d).
  now rewrite !IH.
Qed.

(** Once the colour has been counted [STATE_COUNT_THRESHOLD] times, every
    further frame of that colour commits and publishes. *)
Lemma debounce_frames_committing (c : Color) (rest : list Z) :
  forall (self : TLDetector) (w : Z),
    state self = c ->
    STATE_COUNT_THRESHOLD <= state_count self ->
    state (debounce_frames self c (w :: rest)) = c /\
    last_state (debounce_frames self c (w :: rest)) = c /\
    last_wp (debounce_frames self c (w :: rest)) = committed c (last rest w) /\
    upcoming_red_light_pub (debounce_frames self c (w :: rest))
    = upcoming_red_light_pub self ++ map (committed c) (w :: rest).
Proof.
  induction rest as [|w' rest IH]; intros self w Hst Hge.
  - unfold debounce_frames. cbn [fold_left].
    rewrite (image_cb_debounce_commit self w c Hst Hge). now cbn.
  - change (debounce_frames self c (w :: w' :: rest))
      with (debounce_frames (image_cb_debounce self w c) c (w' :: rest)).
    rewrite (image_cb_debounce_commit self w c Hst Hge).
    match goal with |- context [debounce_frames ?s _ _] =>
      destruct (IH s w') as (E1 & E2 & E3 & E4); [reflexivity | cbn; lia |]
    end.
    rewrite E1, E2, E3, E4. repeat split; try reflexivity.
    + now rewrite last_cons.
    + cbn [upcoming_red_light_pub set_debounce publish map].
      now rewrite <- app_assoc.
Qed.




(** C6 as stated fails: three frames of RED from the initial state commit
    nothing; and from a state that has already counted the colour three
    times the very first frame commits. *)
Lemma debounce_three_frames_no_commit :
  ~ (last_state (debounce_frames (TLDetector_init []) RED [2; 2; 2]) = RED) /\
  ~ (last_wp (debounce_frames (TLDetector_init []) RED [2; 2; 2]) = 2) /\
  last_state
    (debounce_frames
       (debounce_frames (TLDetector_init []) RED [2; 2; 2]) RED [2]) = RED.
Proof. repeat split; vm_compute; discriminate. Qed.

(** C6, as the code has it: from a state whose observed colour is not [c],
    the first three frames of colour [c] leave the stable colour and index as
    they were (the first publishes nothing, the next two republish the old
    index); the fourth frame commits [c], and it and every later frame of
    colour [c] publish the index resolved on that frame when [c] is RED and
    -1 otherwise. *)
Theorem debounce_frames_commit
    (self : TLDetector) (c : Color) (w1 w2 w3 w4 : Z) (rest : list Z) :
  state self <> c ->
  (last_state (debounce_frames self c [w1; w2; w3]) = last_state self /\
   last_wp (debounce_frames self c [w1; w2; w3]) = last_wp self /\
   upcoming_red_light_pub (debounce_frames self c [w1; w2; w3])
   = upcoming_red_light_pub self ++ [last_wp self; last_wp self]) /\
  (last_state (debounce_frames self c (w1 :: w2 :: w3 :: w4 :: rest)) = c /\
   last_wp (debounce_frames self c (w1 :: w2 :: w3 :: w4 :: rest))
   = committed c (last rest w4) /\
   upcoming_red_light_pub (debounce_frames self c (w1 :: w2 :: w3 :: w4 :: rest))
   = upcoming_red_light_pub self
     ++ [last_wp self; last_wp self] ++ map (committed c) (w4 :: rest)).
Proof.
  intros Hne.
  assert (debounce_frames self c [w1; w2; w3]
          = set_debounce (publish (publish self (last_wp self)) (last_wp self))
              c (last_state self) (last_wp self) 3) as E3.
  { unfold debounce_frames. cbn [fold_left].
    rewrite (image_cb_debounce_changed self w1 c Hne).
    rewrite (image_cb_debounce_waiting
               (set_debounce self c (last_state self) (last_wp self) 1) w2 c)
      by (cbn; unfold STATE_COUNT_THRESHOLD; solve [reflexivity | lia]).
    match goal with |- image_cb_debounce ?s w3 c = _ =>
      rewrite (image_cb_debounce_waiting s w3 c)
        by (cbn; unfold STATE_COUNT_THRESHOLD; solve [reflexivity | lia])
    end.
    reflexivity. }
  split.
  - rewrite E3. split; [reflexivity | split; [reflexivity|]].
    cbn [upcoming_red_light_pub set_debounce publish].
    now rewrite <- app_assoc.
  - change (debounce_frames self c (w1 :: w2 :: w3 :: w4 :: rest))
      with (debounce_frames (debounce_frames self c [w1; w2; w3]) c (w4 :: rest)).
    rewrite E3.
    match goal with |- context [debounce_frames ?s _ _] =>
      destruct (debounce_frames_committing c rest s w4) as (_ & E2 & E3' & E4);
        [reflexivity | cbn; unfold STATE_COUNT_THRESHOLD; lia |]
    end.
    rewrite E2, E3', E4. repeat split; try reflexivity.
    cbn [upcoming_red_light_pub set_debounce publish].
    rewrite <- !app_assoc. reflexivity.
Qed.

Lemma debounce_frames_commit_witness :
  (last_state (debounce_frames (TLDetector_init []) RED [2; 2; 2]) = UNKNOWN /\
   last_wp (debounce_frames (TLDetector_init []) RED [2; 2; 2]) = -1 /\
   upcoming_red_light_pub (debounce_frames (TLDetector_init []) RED [2; 2; 2])
   = [] ++ [-1; -1]) /\
  (last_state (debounce_frames (TLDetector_init []) RED [2; 2; 2; 2; 7]) = RED /\
   last_wp (debounce_frames (TLDetector_init []) RED [2; 2; 2; 2; 7])
   = committed RED (last [7] 2) /\
   upcoming_red_light_pub (debounce_frames (TLDetector_init []) RED [2; 2; 2; 2; 7])
   = [] ++ [-1; -1] ++ map (committed RED) [2; 7]).
Proof.
  apply (debounce_frames_commit (TLDetector_init []) RED 2 2 2 2 [7]).
  discriminate.
Defined.

(** * Further properties of the code *)

(** ** get_closest_waypoint *)

Section ClosestMore.

Context {L : Libm} {A : Type} `{Posed A}.

(** A returned integer, for a pose and a list that are there, is the index
    of a candidate inside the search range. *)
Lemma get_closest_waypoint_index
    (p : Pose) (wps : list A) (mode : option string) (i : Z) :
  get_closest_waypoint (Some p) (Some wps) mode = Return (PyInt i) ->
  exists (k : nat) (wp : A) (d : float),
    i = Z.of_nat k /\ nth_error wps k = Some wp /\
    get_distance_between_poses (pose_pose wp) p = Return d /\
    (d <? search_range)%float = true.
Proof.
  unfold get_closest_waypoint. intros E.
  destruct (closest_loop_within p mode wps _ _ _ _ E)
    as [E' | (k & wp & d & E' & Hk & Hd & Hr)]; [discriminate|].
  injection E' as ->. now exists k, wp, d.
Qed.


Lemma closest_loop_out_of_range (p : Pose) (mode : option string) (wps : list A) :
  (forall wp : A, In wp wps ->
     exists d : float,
       get_distance_between_poses (pose_pose wp) p = Return d /\
       (d <? search_range)%float = false) ->
  forall (i : Z) (m : float) (idx : pyidx),
    closest_loop p mode wps i m idx = Return idx.
Proof.
  induction wps as [|w rest IH]; intros Hfar i m idx; [reflexivity|].
  rewrite closest_loop_cons.
  destruct (Hfar w) as (d & -> & Hd); [now left|]. cbn [bind].
  rewrite Hd, andb_false_r.
  apply IH. intros wp Hwp. apply Hfar. now right.
Qed.

Lemma closest_loop_app_out_of_range
    (p : Pose) (mode : option string) (wps far : list A) :
  (forall wp : A, In wp far ->
     exists d : float,
       get_distance_between_poses (pose_pose wp) p = Return d /\
       (d <? search_range)%float = false) ->
  forall (i : Z) (m : float) (idx : pyidx),
    closest_loop p mode (wps ++ far) i m idx = closest_loop p mode wps i m idx.
Proof.
  intros Hfar. induction wps as [|w rest IH]; intros i m idx.
  - now apply closest_loop_out_of_range.
  - cbn [app]. rewrite !closest_loop_cons.
    destruct (get_distance_between_poses (pose_pose w) p); [|reflexivity].
    cbn [bind]. now rewrite !IH.
Qed.

(** X2: candidates that follow in the list, whose distances can be computed
    and are not inside the search range, never change the outcome, in any
    mode: the same result, or the same exception. *)
Theorem get_closest_waypoint_app_out_of_range
    (p : Pose) (mode : option string) (wps far : list A) :
  (forall wp : A, In wp far ->
     exists d : float,
       get_distance_between_poses (pose_pose wp) p = Return d /\
       (d <? search_range)%float = false) ->
  get_closest_waypoint (Some p) (Some (wps ++ far)) mode
  = get_closest_waypoint (Some p) (Some wps) mode.
Proof.
  intros Hfar. unfold get_closest_waypoint.
  now apply closest_loop_app_out_of_range.
Qed.

End ClosestMore.

Lemma get_closest_waypoint_app_out_of_range_witness :
  get_closest_waypoint (Some (ps_pose (at_xy 0 0))) (Some (ring ++ far_away)) None
  = get_closest_waypoint (Some (ps_pose (at_xy 0 0))) (Some ring) None.
Proof.
  apply (get_closest_waypoint_app_out_of_range (ps_pose (at_xy 0 0)) None ring far_away).
  intros wp [<- | []]. exists 500%float. split; reflexivity.
Defined.

(** ** process_traffic_lights *)

(** What the resolver can return, and the geometry behind a real answer. *)
Lemma process_traffic_lights_cases {L : Libm}
    (self : TLDetector) (wp : Z) (c : Color) :
  process_traffic_lights self = Return (wp, c) ->
  (wp, c) = no_relevant_light \/
  exists (car : PoseStamped) (light stop : TrafficLight) (lane : Lane)
         (k : nat) (w : Waypoint) (dl dsl dsc dw : float),
    pose self = Some car /\
    In light (lights self) /\
    In stop (stop_line_positions_poses self) /\
    waypoints self = Some lane /\
    wp = Z.of_nat k /\ nth_error (lane_waypoints lane) k = Some w /\
    c = tl_state light /\
    get_distance_between_poses (pose_pose light) (ps_pose car) = Return dl /\
    (dl <? search_range)%float = true /\
    get_distance_between_poses (pose_pose stop) (pose_pose light) = Return dsl /\
    (dsl <? search_range)%float = true /\
    get_distance_between_poses (pose_pose stop) (ps_pose car) = Return dsc /\
    (dsc <? search_range)%float = true /\
    get_distance_between_poses (pose_pose w) (pose_pose stop) = Return dw /\
    (dw <? search_range)%float = true.
Proof.
  unfold process_traffic_lights.
  destruct (pose self) as [car|] eqn:Hcar; [|intros [= <- <-]; now left].
  destruct (get_closest_waypoint (Some (ps_pose car)) (Some (lights self)) None)
    as [[|li]|] eqn:Hli; cbn [bind pyidx_eqb];
    [intros [= <- <-]; now left | | discriminate].
  destruct (get_closest_waypoint_index _ _ _ _ Hli)
    as (kl & light & dl & -> & Hl & Hdl & Hrl).
  rewrite (py_getitem_nth _ _ _ Hl). cbn [bind].
  destruct (get_closest_waypoint (Some (pose_pose light))
              (Some (stop_line_positions_poses self)) None)
    as [stop_line_idx|] eqn:Hsi; cbn [bind]; [|discriminate].
  destruct (get_closest_waypoint (Some (ps_pose car))
              (Some (stop_line_positions_poses self)) None)
    as [stop_forward_idx|] eqn:Hsj; cbn [bind]; [|discriminate].
  destruct (pyidx_eqb stop_line_idx stop_forward_idx) eqn:Heq; cbn [negb];
    [|intros [= <- <-]; now left].
  apply pyidx_eqb_eq in Heq. subst stop_forward_idx.
  destruct stop_line_idx as [|si]; [discriminate|].
  destruct (get_closest_waypoint_index _ _ _ _ Hsi)
    as (ks & stop & dsl & -> & Hs & Hdsl & Hrsl).
  destruct (get_closest_waypoint_index _ _ _ _ Hsj)
    as (ks' & stop' & dsc & Eks & Hs' & Hdsc & Hrsc).
  apply Nat2Z.inj in Eks. subst ks'. rewrite Hs in Hs'. injection Hs' as <-.
  rewrite (py_getitem_nth _ _ _ Hs). cbn [bind].
  destruct (waypoints self) as [lane|] eqn:Hlane; cbn [py_getattr bind];
    [|discriminate].
  destruct (get_closest_waypoint (Some (pose_pose stop))
              (Some (lane_waypoints lane)) None) as [[|wi]|] eqn:Hwi;
    cbn [bind]; [intros [= <- <-]; now left | | discriminate].
  destruct (get_closest_waypoint_index _ _ _ _ Hwi)
    as (kw & w & dw & -> & Hw & Hdw & Hrw).
  intros [= <- <-]. right.
  exists car, light, stop, lane, kw, w, dl, dsl, dsc, dw.
  repeat split; auto; eapply nth_error_In; eassumption.
Qed.

(** X3: a pair the resolver returns is "no relevant light", or it names a
    waypoint of the current route and the colour of a light such that the
    light is in range of the car, one stop line is in range of both the light
    and the car, and the waypoint is in range of that stop line. *)
Theorem process_traffic_lights_sound {L : Libm}
    (self : TLDetector) (wp : Z) (c : Color) :
  process_traffic_lights self = Return (wp, c) ->
  (wp, c) = no_relevant_light \/
  exists (car : PoseStamped) (light stop : TrafficLight) (lane : Lane)
         (k : nat) (w : Waypoint) (dl dsl dsc dw : float),
    pose self = Some car /\
    In light (lights self) /\
    In stop (stop_line_positions_poses self) /\
    waypoints self = Some lane /\
    wp = Z.of_nat k /\ nth_error (lane_waypoints lane) k = Some w /\
    c = tl_state light /\
    get_distance_between_poses (pose_pose light) (ps_pose car) = Return dl /\
    (dl <? search_range)%float = true /\
    get_distance_between_poses (pose_pose stop) (pose_pose light) = Return dsl /\
    (dsl <? search_range)%float = true /\
    get_distance_between_poses (pose_pose stop) (ps_pose car) = Return dsc /\
    (dsc <? search_range)%float = true /\
    get_distance_between_poses (pose_pose w) (pose_pose stop) = Return dw /\
    (dw <? search_range)%float = true.
Proof. apply process_traffic_lights_cases. Qed.

Lemma process_traffic_lights_sound_witness :
  (2, RED) = no_relevant_light \/
  exists (car : PoseStamped) (light stop : TrafficLight) (lane : Lane)
         (k : nat) (w : Waypoint) (dl dsl dsc dw : float),
    pose (scenario RED) = Some car /\
    In light (lights (scenario RED)) /\
    In stop (stop_line_positions_poses (scenario RED)) /\
    waypoints (scenario RED) = Some lane /\
    2 = Z.of_nat k /\ nth_error (lane_waypoints lane) k = Some w /\
    RED = tl_state light /\
    get_distance_between_poses (pose_pose light) (ps_pose car) = Return dl /\
    (dl <? search_range)%float = true /\
    get_distance_between_poses (pose_pose stop) (pose_pose light) = Return dsl /\
    (dsl <? search_range)%float = true /\
    get_distance_between_poses (pose_pose stop) (ps_pose car) = Return dsc /\
    (dsc <? search_range)%float = true /\
    get_distance_between_poses (pose_pose w) (pose_pose stop) = Return dw /\
    (dw <? search_range)%float = true.
Proof.
  apply (process_traffic_lights_sound (scenario RED) 2 RED). reflexivity.
Defined.

(** A search raises nothing but what the distance computation raises. *)
Lemma get_closest_waypoint_raise {L : Libm} {A : Type} `{Posed A}
    (pose : option Pose) (wps : option (list A)) (mode : option string) (e : exn) :
  get_closest_waypoint pose wps mode = Raise e ->
  e = OverflowError \/ e = ValueError.
Proof.
  unfold get_closest_waypoint. destruct wps as [l|]; [|discriminate].
  destruct pose as [p|]; [|discriminate]. intros E.
  destruct (closest_loop_raise p mode l e _ _ _ E) as (wp & _ & Hwp).
  exact (get_distance_between_poses_raise _ _ _ Hwp).
Qed.

(** X4: the resolver raises in three kinds of situation only, all with a
    pose. One of its four searches raises, [OverflowError] or [ValueError],
    out of a distance computation. Or, with a light in range of the car:
    [TypeError] when no stop line is in range of the light nor of the car,
    so that both searches give [None] and pass the consistency check;
    [AttributeError] when the two searches agree on a stop line and no route
    has arrived. It never raises [IndexError]. *)
Theorem process_traffic_lights_raises {L : Libm} (self : TLDetector) (e : exn) :
  process_traffic_lights self = Raise e ->
  exists car : PoseStamped,
    pose self = Some car /\
    (((e = OverflowError \/ e = ValueError) /\
      (get_closest_waypoint (Some (ps_pose car)) (Some (lights self)) None
         = Raise e \/
       (exists light : TrafficLight,
          In light (lights self) /\
          get_closest_waypoint (Some (pose_pose light))
            (Some (stop_line_positions_poses self)) None = Raise e) \/
       get_closest_waypoint (Some (ps_pose car))
         (Some (stop_line_positions_poses self)) None = Raise e \/
       (exists (stop : TrafficLight) (lane : Lane),
          In stop (stop_line_positions_poses self) /\
          waypoints self = Some lane /\
          get_closest_waypoint (Some (pose_pose stop))
            (Some (lane_waypoints lane)) None = Raise e)))
     \/
     exists (light : TrafficLight) (dl : float),
       In light (lights self) /\
       get_distance_between_poses (pose_pose light) (ps_pose car) = Return dl /\
       (dl <? search_range)%float = true /\
       ((e = TypeError /\
         get_closest_waypoint (Some (pose_pose light))
           (Some (stop_line_positions_poses self)) None = Return PyNone /\
         get_closest_waypoint (Some (ps_pose car))
           (Some (stop_line_positions_poses self)) None = Return PyNone)
        \/
        (e = AttributeError /\
         waypoints self = None /\
         exists si : Z,
           get_closest_waypoint (Some (pose_pose light))
             (Some (stop_line_positions_poses self)) None = Return (PyInt si) /\
           get_closest_waypoint (Some (ps_pose car))
             (Some (stop_line_positions_poses self)) None = Return (PyInt si)))).
Proof.
  unfold process_traffic_lights.
  destruct (pose self) as [car|] eqn:Hcar; [|discriminate].
  intros E. exists car. split; [reflexivity|].
  destruct (get_closest_waypoint (Some (ps_pose car)) (Some (lights self)) None)
    as [[|li]|e1] eqn:Hli; cbn [bind pyidx_eqb] in E; [discriminate | |].
  2:{ injection E as <-. left.
      split; [exact (get_closest_waypoint_raise _ _ _ _ Hli) | now left]. }
  destruct (get_closest_waypoint_index _ _ _ _ Hli)
    as (kl & light & dl & -> & Hl & Hdl & Hrl).
  assert (In light (lights self)) as Hin by (eapply nth_error_In; eassumption).
  rewrite (py_getitem_nth _ _ _ Hl) in E. cbn [bind] in E.
  destruct (get_closest_waypoint (Some (pose_pose light))
              (Some (stop_line_positions_poses self)) None)
    as [stop_line_idx|e2] eqn:Hsi; cbn [bind] in E.
  2:{ injection E as <-. left.
      split; [exact (get_closest_waypoint_raise _ _ _ _ Hsi)|].
      right. left. now exists light. }
  destruct (get_closest_waypoint (Some (ps_pose car))
              (Some (stop_line_positions_poses self)) None)
    as [stop_forward_idx|e3] eqn:Hsj; cbn [bind] in E.
  2:{ injection E as <-. left.
      split; [exact (get_closest_waypoint_raise _ _ _ _ Hsj)|].
      right. right. now left. }
  destruct (pyidx_eqb stop_line_idx stop_forward_idx) eqn:Heq; cbn [negb] in E;
    [|discriminate].
  apply pyidx_eqb_eq in Heq. subst stop_forward_idx.
  destruct stop_line_idx as [|si].
  { cbn [py_getitem bind] in E. injection E as <-.
    right. exists light, dl. repeat split; auto. }
  destruct (get_closest_waypoint_index _ _ _ _ Hsi)
    as (ks & stop & dsl & -> & Hs & _).
  rewrite (py_getitem_nth _ _ _ Hs) in E. cbn [bind] in E.
  destruct (waypoints self) as [lane|] eqn:Hlane; cbn [py_getattr bind] in E.
  - destruct (get_closest_waypoint (Some (pose_pose stop))
                (Some (lane_waypoints lane)) None) as [[|wi]|e4] eqn:Hwi;
      cbn [bind] in E; try discriminate.
    injection E as <-. left.
    split; [exact (get_closest_waypoint_raise _ _ _ _ Hwi)|].
    right. right. right. exists stop, lane.
    repeat split; auto. eapply nth_error_In; eassumption.
  - injection E as <-. right. exists light, dl. repeat split; auto.
    right. repeat split; auto. now exists (Z.of_nat ks).
Qed.

Lemma process_traffic_lights_raises_witness :
  exists car : PoseStamped,
    pose (scenario_no_route RED) = Some car /\
    (((AttributeError = OverflowError \/ AttributeError = ValueError) /\
      (get_closest_waypoint (Some (ps_pose car))
         (Some (lights (scenario_no_route RED))) None = Raise AttributeError \/
       (exists light : TrafficLight,
          In light (lights (scenario_no_route RED)) /\
          get_closest_waypoint (Some (pose_pose light))
            (Some (stop_line_positions_poses (scenario_no_route RED))) None
          = Raise AttributeError) \/
       get_closest_waypoint (Some (ps_pose car))
         (Some (stop_line_positions_poses (scenario_no_route RED))) None
       = Raise AttributeError \/
       (exists (stop : TrafficLight) (lane : Lane),
          In stop (stop_line_positions_poses (scenario_no_route RED)) /\
          waypoints (scenario_no_route RED) = Some lane /\
          get_closest_waypoint (Some (pose_pose stop))
            (Some (lane_waypoints lane)) None = Raise AttributeError)))
     \/
     exists (light : TrafficLight) (dl : float),
       In light (lights (scenario_no_route RED)) /\
       get_distance_between_poses (pose_pose light) (ps_pose car) = Return dl /\
       (dl <? search_range)%float = true /\
       ((AttributeError = TypeError /\
         get_closest_waypoint (Some (pose_pose light))
           (Some (stop_line_positions_poses (scenario_no_route RED))) None
         = Return PyNone /\
         get_closest_waypoint (Some (ps_pose car))
           (Some (stop_line_positions_poses (scenario_no_route RED))) None
         = Return PyNone)
        \/
        (AttributeError = AttributeError /\
         waypoints (scenario_no_route RED) = None /\
         exists si : Z,
           get_closest_waypoint (Some (pose_pose light))
             (Some (stop_line_positions_poses (scenario_no_route RED))) None
           = Return (PyInt si) /\
           get_closest_waypoint (Some (ps_pose car))
             (Some (stop_line_positions_poses (scenario_no_route RED))) None
           = Return (PyInt si)))).
Proof.
  apply (process_traffic_lights_raises (scenario_no_route RED) AttributeError).
  reflexivity.
Defined.

(** A light beyond the float range makes the first search, and with it the
    resolver and the frame, raise [OverflowError]. *)
Example process_traffic_lights_overflow :
  process_traffic_lights (scenario_beyond RED) = Raise OverflowError /\
  raised (image_cb (scenario_beyond RED) frame) = Some OverflowError.
Proof. split; reflexivity. Qed.

(** X5: when the distance from the car to every light can be computed and
    none is inside the search range, and in particular with no lights at
    all, the resolver returns "no relevant light": it neither raises nor
    looks at the stop lines or the route. *)
Theorem process_traffic_lights_no_light_in_range {L : Libm} (self : TLDetector) :
  (forall (car : PoseStamped) (light : TrafficLight),
     pose self = Some car -> In light (lights self) ->
     exists d : float,
       get_distance_between_poses (pose_pose light) (ps_pose car) = Return d /\
       (d <? search_range)%float = false) ->
  process_traffic_lights self = Return no_relevant_light.
Proof.
  intros Hfar. unfold process_traffic_lights.
  destruct (pose self) as [car|] eqn:Hcar; [|reflexivity].
  unfold get_closest_waypoint at 1.
  rewrite closest_loop_out_of_range; [reflexivity|].
  intros light Hl. now apply Hfar.
Qed.

Lemma process_traffic_lights_no_light_in_range_witness :
  process_traffic_lights (scenario_far_light RED) = Return no_relevant_light.
Proof.
  apply process_traffic_lights_no_light_in_range.
  intros car light [= <-] [<- | []]. exists 500%float. split; reflexivity.
Defined.

Lemma process_traffic_lights_index_bound {L : Libm}
    (self : TLDetector) (wp : Z) (c : Color) :
  process_traffic_lights self = Return (wp, c) -> -1 <= wp.
Proof.
  intros E. destruct (process_traffic_lights_cases self wp c E)
    as [[= -> _] | (car & light & stop & lane & k & w & dl & dsl & dsc & dw
                    & _ & _ & _ & _ & -> & _)]; lia.
Qed.

(** ** image_cb over several frames *)

(** The debounce step leaves what the resolver reads as it is. *)
Lemma process_traffic_lights_image_cb_debounce {L : Libm}
    (self : TLDetector) (wp : Z) (c : Color) :
  process_traffic_lights (image_cb_debounce self wp c)
  = process_traffic_lights self.
Proof.
  unfold image_cb_debounce.
  destruct (negb (Color_eqb (state self) c));
    [|destruct (STATE_COUNT_THRESHOLD <=? state_count self)]; reflexivity.
Qed.

(** The debounce step reads nothing but the debounce fields. *)
Lemma image_cb_debounce_view (s t : TLDetector) (wp : Z) (c : Color) :
  debounce_view s = debounce_view t ->
  debounce_view (image_cb_debounce s wp c)
  = debounce_view (image_cb_debounce t wp c).
Proof.
  unfold debounce_view. intros [= E1 E2 E3 E4 E5].
  unfold image_cb_debounce. rewrite E1, E4.
  destruct (negb (Color_eqb (state t) c));
    [|destruct (STATE_COUNT_THRESHOLD <=? state_count t)];
    cbn; congruence.
Qed.

Lemma debounce_frames_view (c : Color) (wps : list Z) :
  forall s t : TLDetector,
    debounce_view s = debounce_view t ->
    debounce_view (debounce_frames s c wps)
    = debounce_view (debounce_frames t c wps).
Proof.
  induction wps as [|w rest IH]; intros s t E; [exact E|].
  apply (IH (image_cb_debounce s w c) (image_cb_debounce t w c)).
  now apply image_cb_debounce_view.
Qed.

Lemma image_cb_frames_steady {L : Libm} (msgs : list Image) :
  forall (self : TLDetector) (wp : Z) (c : Color),
    process_traffic_lights self = Return (wp, c) ->
    exists s' : TLDetector,
      image_cb_frames self msgs = Done s' /\
      process_traffic_lights s' = Return (wp, c) /\
      debounce_view s'
      = debounce_view (debounce_frames self c (repeat wp (List.length msgs))).
Proof.
  induction msgs as [|msg rest IH]; intros self wp c E.
  - exists self. repeat split; auto.
  - cbn [image_cb_frames]. unfold image_cb.
    rewrite process_traffic_lights_set_image, E.
    destruct (IH (image_cb_debounce (set_image self msg) wp c) wp c)
      as (s' & Hrun & Hres & Hview).
    { now rewrite process_traffic_lights_image_cb_debounce,
        process_traffic_lights_set_image. }
    exists s'. split; [exact Hrun|]. split; [exact Hres|].
    rewrite Hview. cbn [List.length repeat].
    apply (debounce_frames_view c (repeat wp (List.length rest))
             (image_cb_debounce (set_image self msg) wp c)
             (image_cb_debounce self wp c)).
    now apply image_cb_debounce_view.
Qed.

(** X6: while no other callback intervenes, [image_cb] does not disturb what
    the resolver reads: if the resolver answers [(wp, c)] now, then any
    number of frames run without an exception, the resolver still answers
    [(wp, c)] afterwards, and the debounce fields and the published
    messages are those of that many debounce steps on [(wp, c)]. *)
Theorem image_cb_frames_debounce {L : Libm}
    (self : TLDetector) (msgs : list Image) (wp : Z) (c : Color) :
  process_traffic_lights self = Return (wp, c) ->
  exists s' : TLDetector,
    image_cb_frames self msgs = Done s' /\
    process_traffic_lights s' = Return (wp, c) /\
    debounce_view s'
    = debounce_view (debounce_frames self c (repeat wp (List.length msgs))).
Proof. apply image_cb_frames_steady. Qed.

Lemma image_cb_frames_debounce_witness :
  exists s' : TLDetector,
    image_cb_frames (scenario RED) [frame; frame; frame; frame] = Done s' /\
    process_traffic_lights s' = Return (2, RED) /\
    debounce_view s'
    = debounce_view
        (debounce_frames (scenario RED) RED
           (repeat 2 (List.length [frame; frame; frame; frame]))).
Proof.
  apply (image_cb_frames_debounce (scenario RED) [frame; frame; frame; frame] 2 RED).
  reflexivity.
Defined.

(** Scenario A over four frames, for every C library exact on its squares. *)
Lemma scenario_frames_any_libm (L : Libm) :
  (forall v : float, In v [2; 3; 8; 12; 18; 22; 25]%float ->
     L v = ((v * v)%float, false)) ->
  exists s4 : TLDetector,
    @image_cb_frames L (scenario RED) [frame; frame; frame; frame] = Done s4 /\
    debounce_view s4 = (RED, RED, 2, 4, [-1; -1; 2]).
Proof.
  intros HL.
  destruct (@image_cb_frames_steady L [frame; frame; frame; frame]
              (scenario RED) 2 RED (scenario_any_libm L RED HL))
    as (s4 & Hrun & _ & Hview).
  exists s4. split; [exact Hrun | exact Hview].
Qed.

(** X7: a node that has no pose yet, whose observed colour is UNKNOWN and
    whose last index is -1, as after construction, publishes -1 on every
    camera frame and never raises, whatever route, lights and stop lines it
    holds. *)
Theorem image_cb_frames_without_pose {L : Libm} (msgs : list Image) :
  forall self : TLDetector,
    pose self = None -> state self = UNKNOWN -> last_wp self = -1 ->
    exists s' : TLDetector,
      image_cb_frames self msgs = Done s' /\
      upcoming_red_light_pub s'
      = upcoming_red_light_pub self ++ repeat (-1) (List.length msgs) /\
      last_wp s' = -1.
Proof.
  induction msgs as [|msg rest IH]; intros self Hpose Hst Hwp.
  - exists self. cbn. now rewrite app_nil_r.
  - cbn [image_cb_frames]. unfold image_cb.
    rewrite process_traffic_lights_set_image,
      (process_traffic_lights_no_pose self Hpose).
    cbn [no_relevant_light].
    assert (exists s1 : TLDetector,
              image_cb_debounce (set_image self msg) (-1) UNKNOWN = s1 /\
              pose s1 = None /\ state s1 = UNKNOWN /\ last_wp s1 = -1 /\
              upcoming_red_light_pub s1 = upcoming_red_light_pub self ++ [-1])
      as (s1 & -> & H1 & H2 & H3 & H4).
    { eexists. split; [reflexivity|]. unfold image_cb_debounce.
      cbn [state set_image state_count last_wp last_state]. rewrite Hst, Hwp.
      cbn [Color_eqb negb].
      destruct (STATE_COUNT_THRESHOLD <=? state_count self); cbn; auto. }
    destruct (IH s1 H1 H2 H3) as (s' & Hrun & Hpub & Hlast).
    exists s'. split; [exact Hrun|]. split; [|exact Hlast].
    rewrite Hpub, H4, <- app_assoc. reflexivity.
Qed.

Lemma image_cb_frames_without_pose_witness :
  exists s' : TLDetector,
    image_cb_frames (TLDetector_init [(22, 0)%float]) [frame; frame; frame; frame; frame]
      = Done s' /\
    upcoming_red_light_pub s'
    = upcoming_red_light_pub (TLDetector_init [(22, 0)%float])
      ++ repeat (-1) (List.length [frame; frame; frame; frame; frame]) /\
    last_wp s' = -1.
Proof.
  apply (image_cb_frames_without_pose [frame; frame; frame; frame; frame]
           (TLDetector_init [(22, 0)%float])); reflexivity.
Defined.

(** ** The debounce counter over a history of frames *)

Lemma debounce_run_snoc (self : TLDetector) (raw : list (Z * Color)) (r : Z * Color) :
  debounce_run self (raw ++ [r])
  = image_cb_debounce (debounce_run self raw) (fst r) (snd r).
Proof. unfold debounce_run. now rewrite fold_left_app. Qed.

Lemma observed_snoc (raw : list (Z * Color)) (r : Z * Color) :
  observed (raw ++ [r]) = snd r.
Proof. unfold observed. now rewrite rev_unit. Qed.

Lemma streak_snoc (c : Color) (raw : list (Z * Color)) (r : Z * Color) :
  streak c (raw ++ [r]) = if Color_eqb (snd r) c then 1 + streak c raw else 0.
Proof. unfold streak. now rewrite rev_unit. Qed.

Lemma streak_other (c : Color) (raw : list (Z * Color)) :
  observed raw <> c -> streak c raw = 0.
Proof.
  unfold observed, streak. destruct (rev raw) as [|r rest]; [reflexivity|].
  intros Hne. cbn. now rewrite (Color_eqb_neq _ _ Hne).
Qed.

Lemma debounce_run_state (config : list (float * float)) (raw : list (Z * Color)) :
  state (debounce_run (TLDetector_init config) raw) = observed raw /\
  state_count (debounce_run (TLDetector_init config) raw)
  = streak (observed raw) raw.
Proof.
  induction raw as [|[wp c] raw [IHs IHc]] using rev_ind; [split; reflexivity|].
  rewrite debounce_run_snoc, observed_snoc, streak_snoc. cbn [fst snd].
  rewrite Color_eqb_refl.
  destruct (Color_eqb (state (debounce_run (TLDetector_init config) raw)) c) eqn:E.
  - apply Color_eqb_eq in E.
    assert (observed raw = c) as Hobs by congruence.
    rewrite Hobs in IHc. rewrite <- IHc.
    unfold image_cb_debounce. rewrite E, Color_eqb_refl. cbn [negb].
    destruct (STATE_COUNT_THRESHOLD <=? _);
      cbn [state state_count set_debounce publish]; split; auto; lia.
  - assert (observed raw <> c) as Hobs.
    { intros Hobs. rewrite <- IHs in Hobs. rewrite Hobs, Color_eqb_refl in E.
      discriminate. }
    rewrite (streak_other c raw Hobs).
    unfold image_cb_debounce. rewrite E.
    cbn [negb state state_count set_debounce]. auto.
Qed.

(** X8: after any history of frames on a freshly constructed node,
    [self.state] is the colour of the last frame and [self.state_count] is
    the number of frames at the end of the history that carry this colour:
    the counter restarts at 1 on every change of colour. *)
Theorem debounce_run_counts (config : list (float * float)) (raw : list (Z * Color)) :
  state (debounce_run (TLDetector_init config) raw) = observed raw /\
  state_count (debounce_run (TLDetector_init config) raw)
  = streak (observed raw) raw.
Proof. apply debounce_run_state. Qed.

(** X9: on a freshly constructed node, a frame changes the stable colour or
    the stable index only if at least [STATE_COUNT_THRESHOLD] frames directly
    before it carry the colour of that frame. *)
Theorem debounce_run_change_needs_streak
    (config : list (float * float)) (raw : list (Z * Color)) (wp : Z) (c : Color) :
  last_state (debounce_run (TLDetector_init config) (raw ++ [(wp, c)]))
    <> last_state (debounce_run (TLDetector_init config) raw)
  \/ last_wp (debounce_run (TLDetector_init config) (raw ++ [(wp, c)]))
    <> last_wp (debounce_run (TLDetector_init config) raw) ->
  observed raw = c /\ STATE_COUNT_THRESHOLD <= streak c raw.
Proof.
  rewrite debounce_run_snoc. cbn [fst snd].
  destruct (debounce_run_state config raw) as [Hs Hc].
  unfold image_cb_debounce.
  destruct (Color_eqb (state (debounce_run (TLDetector_init config) raw)) c) eqn:E;
    cbn [negb].
  - apply Color_eqb_eq in E. rewrite Hs in E. rewrite E in Hc.
    destruct (Z.leb_spec STATE_COUNT_THRESHOLD
                (state_count (debounce_run (TLDetector_init config) raw))) as [Hge|Hlt].
    + intros _. split; [exact E | now rewrite <- Hc].
    + cbn. intros [H | H]; now contradiction H.
  - cbn. intros [H | H]; now contradiction H.
Qed.

Lemma debounce_run_change_needs_streak_witness :
  observed [(2, RED); (2, RED); (2, RED)] = RED /\
  STATE_COUNT_THRESHOLD <= streak RED [(2, RED); (2, RED); (2, RED)].
Proof.
  apply (debounce_run_change_needs_streak []
           [(2, RED); (2, RED); (2, RED)] 2 RED).
  left. vm_compute. discriminate.
Defined.

(** X10: conversely, on a freshly constructed node a frame of colour [c]
    that follows at least [STATE_COUNT_THRESHOLD] frames of colour [c]
    commits: the stable colour becomes [c], and the index published and kept
    is the frame's own when [c] is RED and -1 otherwise. *)
Theorem debounce_run_streak_commits
    (config : list (float * float)) (raw : list (Z * Color)) (wp : Z) (c : Color) :
  STATE_COUNT_THRESHOLD <= streak c raw ->
  last_state (debounce_run (TLDetector_init config) (raw ++ [(wp, c)])) = c /\
  last_wp (debounce_run (TLDetector_init config) (raw ++ [(wp, c)]))
  = committed c wp /\
  upcoming_red_light_pub (debounce_run (TLDetector_init config) (raw ++ [(wp, c)]))
  = upcoming_red_light_pub (debounce_run (TLDetector_init config) raw)
    ++ [committed c wp].
Proof.
  intros Hge. rewrite debounce_run_snoc. cbn [fst snd].
  destruct (debounce_run_state config raw) as [Hs Hc].
  assert (observed raw = c) as Hobs.
  { destruct (Color_eqb (observed raw) c) eqn:E; [now apply Color_eqb_eq|].
    rewrite streak_other in Hge; [unfold STATE_COUNT_THRESHOLD in Hge; lia|].
    intros Heq. rewrite Heq, Color_eqb_refl in E. discriminate. }
  rewrite Hobs in Hs, Hc.
  rewrite (image_cb_debounce_commit _ wp c Hs) by now rewrite Hc.
  repeat split.
Qed.

Lemma debounce_run_streak_commits_witness :
  last_state (debounce_run (TLDetector_init [])
                ([(2, RED); (2, RED); (5, RED)] ++ [(7, RED)])) = RED /\
  last_wp (debounce_run (TLDetector_init [])
             ([(2, RED); (2, RED); (5, RED)] ++ [(7, RED)]))
  = committed RED 7 /\
  upcoming_red_light_pub
    (debounce_run (TLDetector_init [])
       ([(2, RED); (2, RED); (5, RED)] ++ [(7, RED)]))
  = upcoming_red_light_pub
      (debounce_run (TLDetector_init []) [(2, RED); (2, RED); (5, RED)])
    ++ [committed RED 7].
Proof.
  apply (debounce_run_streak_commits [] [(2, RED); (2, RED); (5, RED)] 7 RED).
  vm_compute. discriminate.
Defined.

(** ** Invariants of the node *)

Lemma image_cb_debounce_invariant (self : TLDetector) (wp : Z) (c : Color) :
  -1 <= wp ->
  0 <= state_count self ->
  (last_state self <> RED -> last_wp self = -1) ->
  -1 <= last_wp self ->
  Forall (fun v => -1 <= v) (upcoming_red_light_pub self) ->
  0 <= state_count (image_cb_debounce self wp c) /\
  (last_state (image_cb_debounce self wp c) <> RED ->
   last_wp (image_cb_debounce self wp c) = -1) /\
  -1 <= last_wp (image_cb_debounce self wp c) /\
  Forall (fun v => -1 <= v) (upcoming_red_light_pub (image_cb_debounce self wp c)).
Proof.
  intros Hwp Hcnt Hred Hlast Hpub.
  destruct (Color_eqb (state self) c) eqn:E.
  - apply Color_eqb_eq in E.
    destruct (Z.leb_spec STATE_COUNT_THRESHOLD (state_count self)) as [Hge|Hlt].
    + rewrite (image_cb_debounce_commit self wp c E Hge).
      cbn [state_count last_state last_wp upcoming_red_light_pub set_debounce publish].
      assert (-1 <= committed c wp) as Hc
        by (unfold committed; destruct (Color_eqb c RED); lia).
      repeat split; try lia.
      * intros Hne. unfold committed. now rewrite (Color_eqb_neq _ _ Hne).
      * apply Forall_app. split; [exact Hpub | now constructor].
    + rewrite (image_cb_debounce_waiting self wp c E Hlt).
      cbn [state_count last_state last_wp upcoming_red_light_pub set_debounce publish].
      repeat split; try lia; auto.
      apply Forall_app. split; [exact Hpub | now constructor].
  - assert (state self <> c) as Hne
      by (intros Heq; rewrite Heq, Color_eqb_refl in E; discriminate).
    rewrite (image_cb_debounce_changed self wp c Hne).
    cbn [state_count last_state last_wp upcoming_red_light_pub set_debounce].
    repeat split; try lia; auto.
Qed.

Lemma reachable_invariant {L : Libm} (config : list (float * float)) (self : TLDetector) :
  reachable config self ->
  stop_line_positions_poses self
  = stop_line_positions_poses (TLDetector_init config) /\
  0 <= state_count self /\
  (last_state self <> RED -> last_wp self = -1) /\
  -1 <= last_wp self /\
  Forall (fun v => -1 <= v) (upcoming_red_light_pub self).
Proof.
  induction 1 as [| s msg _ IH | s msg _ IH | s msg _ IH | s msg _ IH].
  - cbn. repeat split; try lia; auto.
  - exact IH.
  - exact IH.
  - exact IH.
  - destruct IH as (Hstop & Hcnt & Hred & Hlast & Hpub).
    unfold image_cb. rewrite process_traffic_lights_set_image.
    destruct (process_traffic_lights s) as [[wp c]|e] eqn:E; cbn [after].
    + split.
      { rewrite <- Hstop. unfold image_cb_debounce.
        destruct (negb _); [|destruct (_ <=? _)]; reflexivity. }
      apply image_cb_debounce_invariant; auto.
      exact (process_traffic_lights_index_bound s wp c E).
    + repeat split; auto.
Qed.

Lemma TLDetector_init_stop_lines (config : list (float * float)) :
  map (fun s => (x (position (pose_pose s)), y (position (pose_pose s))))
    (stop_line_positions_poses (TLDetector_init config)) = config.
Proof.
  cbn [stop_line_positions_poses TLDetector_init]. rewrite map_map.
  induction config as [|[a b] rest IH]; [reflexivity|].
  cbn [map]. rewrite IH. reflexivity.
Qed.

(** X11: whatever callbacks the node has run, its stop lines are those built
    from the configuration at construction, in the same order. *)
Theorem reachable_stop_lines_fixed {L : Libm} (config : list (float * float)) (self : TLDetector) :
  reachable config self ->
  stop_line_positions_poses self
  = stop_line_positions_poses (TLDetector_init config) /\
  map (fun s => (x (position (pose_pose s)), y (position (pose_pose s))))
    (stop_line_positions_poses self) = config.
Proof.
  intros Hr. destruct (reachable_invariant config self Hr) as (-> & _).
  split; [reflexivity | apply TLDetector_init_stop_lines].
Qed.

(** X12: whatever callbacks the node has run, a stable colour other than RED
    goes with the stable index -1, and the counter is never negative. *)
Theorem reachable_non_red_no_stop {L : Libm} (config : list (float * float)) (self : TLDetector) :
  reachable config self ->
  (last_state self <> RED -> last_wp self = -1) /\ 0 <= state_count self.
Proof.
  intros Hr. destruct (reachable_invariant config self Hr) as (_ & H1 & H2 & _).
  now split.
Qed.

(** X13: whatever callbacks the node has run, every message it has published
    and the stable index it holds are -1 or a natural number. *)
Theorem reachable_published_bound {L : Libm} (config : list (float * float)) (self : TLDetector) :
  reachable config self ->
  -1 <= last_wp self /\
  Forall (fun v => -1 <= v) (upcoming_red_light_pub self).
Proof.
  intros Hr. destruct (reachable_invariant config self Hr) as (_ & _ & _ & H1 & H2).
  now split.
Qed.

Lemma scenario_reachable (c : Color) : reachable [(22, 0)%float] (scenario c).
Proof. unfold scenario. repeat constructor. Defined.

Lemma four_frames_reachable (c : Color) :
  reachable [(22, 0)%float]
    (after (image_cb (after (image_cb (after (image_cb (after
       (image_cb (scenario c) frame)) frame)) frame)) frame)).
Proof. repeat apply reach_image. apply scenario_reachable. Defined.

Lemma reachable_stop_lines_fixed_witness :
  stop_line_positions_poses (scenario RED)
  = stop_line_positions_poses (TLDetector_init [(22, 0)%float]) /\
  map (fun s => (x (position (pose_pose s)), y (position (pose_pose s))))
    (stop_line_positions_poses (scenario RED)) = [(22, 0)%float].
Proof.
  apply (reachable_stop_lines_fixed [(22, 0)%float] (scenario RED)).
  apply scenario_reachable.
Defined.

Lemma reachable_non_red_no_stop_witness :
  (last_state
     (after (image_cb (after (image_cb (after (image_cb (after
        (image_cb (scenario GREEN) frame)) frame)) frame)) frame)) <> RED ->
   last_wp
     (after (image_cb (after (image_cb (after (image_cb (after
        (image_cb (scenario GREEN) frame)) frame)) frame)) frame)) = -1) /\
  0 <= state_count
         (after (image_cb (after (image_cb (after (image_cb (after
            (image_cb (scenario GREEN) frame)) frame)) frame)) frame)).
Proof.
  apply (reachable_non_red_no_stop [(22, 0)%float]).
  apply (four_frames_reachable GREEN).
Defined.

(** The state that witness is about: GREEN has been committed, with index
    -1, after four frames. *)
Example four_green_frames_committed :
  debounce_view
    (after (image_cb (after (image_cb (after (image_cb (after
       (image_cb (scenario GREEN) frame)) frame)) frame)) frame))
  = (GREEN, GREEN, -1, 4, [-1; -1; -1]).
Proof. reflexivity. Qed.

Lemma reachable_published_bound_witness :
  -1 <= last_wp
          (after (image_cb (after (image_cb (after (image_cb (after
             (image_cb (scenario RED) frame)) frame)) frame)) frame)) /\
  Forall (fun v => -1 <= v)
    (upcoming_red_light_pub
       (after (image_cb (after (image_cb (after (image_cb (after
          (image_cb (scenario RED) frame)) frame)) frame)) frame))).
Proof.
  apply (reachable_published_bound [(22, 0)%float]).
  apply (four_frames_reachable RED).
Defined.

(** ** The heading of the car *)

(** X14: the orientation of the car has no effect on a camera frame: turned
    to any orientation, the node raises the same exception or none, publishes
    the same messages and ends with the same debounce fields. *)
Theorem image_cb_ignores_heading {L : Libm}
    (q : Quaternion) (self : TLDetector) (msg : Image) :
  raised (image_cb (turn q self) msg) = raised (image_cb self msg) /\
  debounce_view (after (image_cb (turn q self) msg))
  = debounce_view (after (image_cb self msg)).
Proof.
  assert (debounce_view (turn q self) = debounce_view self) as Hview
    by (unfold turn; now destruct (pose self)).
  unfold image_cb. rewrite !process_traffic_lights_set_image,
    process_traffic_lights_ignores_heading.
  destruct (process_traffic_lights self) as [[wp c]|e]; cbn [after raised].
  - split; [reflexivity|]. apply image_cb_debounce_view. exact Hview.
  - split; [reflexivity | exact Hview].
Qed.

(** ** get_distance_between_poses *)

Lemma binary_round_aux_not_negative (prec emax mx ex : Z) (lx : location) :
  SFltb (binary_round_aux prec emax false mx ex lx) (S754_zero false) = false.
Proof.
  unfold binary_round_aux.
  destruct (shr_fexp prec emax mx ex lx) as [mrs' e'].
  destruct (shr_fexp prec emax _ e' loc_Exact) as [mrs'' e''].
  destruct (shr_m mrs'') as [|m|m]; [reflexivity| |reflexivity].
  destruct (e'' <=? emax - prec); reflexivity.
Qed.

Lemma sqrt_not_negative (v : float) : (sqrt v <? 0)%float = false.
Proof.
  rewrite ltb_spec, sqrt_spec.
  change (Prim2SF 0) with (S754_zero false).
  unfold SF64sqrt, SFsqrt.
  destruct (Prim2SF v) as [[]|[]| |[] m e]; try reflexivity.
  destruct (SFsqrt_core_binary prec emax (Z.pos m) e) as [[mz ez] lz].
  apply binary_round_aux_not_negative.
Qed.

(** X15: a distance computed between two poses is never below zero,
    whatever their coordinates, infinite and NaN ones included, and whatever
    the C library returns for the squares. *)
Theorem get_distance_between_poses_not_negative {L : Libm} (a b : Pose) (d : float) :
  get_distance_between_poses a b = Return d ->
  (d <? 0)%float = false.
Proof.
  unfold get_distance_between_poses.
  destruct (float_pow2 _) as [dx2|]; [|discriminate]. cbn [bind].
  destruct (float_pow2 _) as [dy2|]; [|discriminate]. cbn [bind].
  intros E. rewrite (math_sqrt_return _ _ E). apply sqrt_not_negative.
Qed.

Lemma get_distance_between_poses_not_negative_witness :
  get_distance_between_poses (ps_pose (at_xy 3 4)) (ps_pose (at_xy 0 0))
    = Return 5%float /\
  (5 <? 0)%float = false.
Proof.
  split; [reflexivity|].
  apply (get_distance_between_poses_not_negative
           (ps_pose (at_xy 3 4)) (ps_pose (at_xy 0 0)) 5).
  reflexivity.
Defined.

(** ** Which light and which waypoint the resolver picks *)

(** A match of the plain search is nearest, first among equals. *)
Lemma get_closest_waypoint_match_nearest {L : Libm} {A : Type} `{Posed A}
    (p : Pose) (wps : list A) (i : Z) :
  get_closest_waypoint (Some p) (Some wps) None = Return (PyInt i) ->
  exists (k : nat) (wp : A) (d : float),
    i = Z.of_nat k /\ nth_error wps k = Some wp /\
    get_distance_between_poses (pose_pose wp) p = Return d /\
    (forall (j : nat) (wj : A), nth_error wps j = Some wj ->
       exists dj : float,
         get_distance_between_poses (pose_pose wj) p = Return dj /\
         (dj <? d)%float = false) /\
    (forall (j : nat) (wj : A) (dj : float), nth_error wps j = Some wj ->
       get_distance_between_poses (pose_pose wj) p = Return dj ->
       (dj =? d)%float = true ->
       (k <= j)%nat).
Proof.
  unfold get_closest_waypoint. intros E.
  destruct (closest_loop_nearest p wps _ _ _ _ E)
    as [[E' _] | (k & wp & d & E' & Hk & Hd & _ & _ & Hmin & Htie)];
    [discriminate|].
  injection E' as ->. now exists k, wp, d.
Qed.

(** The searches behind an answer other than "no relevant light". *)
Lemma process_traffic_lights_searches {L : Libm}
    (self : TLDetector) (wp : Z) (c : Color) :
  process_traffic_lights self = Return (wp, c) ->
  wp <> -1 ->
  exists (car : PoseStamped) (lane : Lane) (kl ks : nat)
         (light stop : TrafficLight),
    pose self = Some car /\
    waypoints self = Some lane /\
    get_closest_waypoint (Some (ps_pose car)) (Some (lights self)) None
      = Return (PyInt (Z.of_nat kl)) /\
    nth_error (lights self) kl = Some light /\
    get_closest_waypoint (Some (pose_pose light))
      (Some (stop_line_positions_poses self)) None = Return (PyInt (Z.of_nat ks)) /\
    get_closest_waypoint (Some (ps_pose car))
      (Some (stop_line_positions_poses self)) None = Return (PyInt (Z.of_nat ks)) /\
    nth_error (stop_line_positions_poses self) ks = Some stop /\
    get_closest_waypoint (Some (pose_pose stop))
      (Some (lane_waypoints lane)) None = Return (PyInt wp) /\
    c = tl_state light.
Proof.
  unfold process_traffic_lights.
  destruct (pose self) as [car|] eqn:Hcar; [|intros [= <- <-]; congruence].
  destruct (get_closest_waypoint (Some (ps_pose car)) (Some (lights self)) None)
    as [[|li]|] eqn:Hli; cbn [bind pyidx_eqb];
    [intros [= <- <-]; congruence | | discriminate].
  destruct (get_closest_waypoint_index _ _ _ _ Hli) as (kl & light & dl & -> & Hl & _).
  rewrite (py_getitem_nth _ _ _ Hl). cbn [bind].
  destruct (get_closest_waypoint (Some (pose_pose light))
              (Some (stop_line_positions_poses self)) None)
    as [stop_line_idx|] eqn:Hsi; cbn [bind]; [|discriminate].
  destruct (get_closest_waypoint (Some (ps_pose car))
              (Some (stop_line_positions_poses self)) None)
    as [stop_forward_idx|] eqn:Hsj; cbn [bind]; [|discriminate].
  destruct (pyidx_eqb stop_line_idx stop_forward_idx) eqn:Heq; cbn [negb];
    [|intros [= <- <-]; congruence].
  apply pyidx_eqb_eq in Heq. subst stop_forward_idx.
  destruct stop_line_idx as [|si]; [discriminate|].
  destruct (get_closest_waypoint_index _ _ _ _ Hsi) as (ks & stop & dsl & -> & Hs & _).
  rewrite (py_getitem_nth _ _ _ Hs). cbn [bind].
  destruct (waypoints self) as [lane|] eqn:Hlane; cbn [py_getattr bind];
    [|discriminate].
  destruct (get_closest_waypoint (Some (pose_pose stop))
              (Some (lane_waypoints lane)) None) as [[|wi]|] eqn:Hwi;
    cbn [bind]; [intros [= <- <-]; congruence | | discriminate].
  intros [= <- <-] _.
  exists car, lane, kl, ks, light, stop. repeat split; auto.
Qed.

(** X16: when the resolver names a waypoint, the colour it returns is that
    of the light nearest to the car, the first one in the list among equally
    near lights, whatever the colours of the others; and the waypoint is the
    one nearest to a stop line, again the first among equally near ones;
    no stop line is nearer to that light, or to the car, than this one. *)
Theorem process_traffic_lights_nearest {L : Libm}
    (self : TLDetector) (wp : Z) (c : Color) :
  process_traffic_lights self = Return (wp, c) ->
  wp <> -1 ->
  exists (car : PoseStamped) (lane : Lane) (kl kw : nat)
         (light stop : TrafficLight) (w : Waypoint) (dl dsl dsc dw : float),
    pose self = Some car /\ waypoints self = Some lane /\
    nth_error (lights self) kl = Some light /\ c = tl_state light /\
    get_distance_between_poses (pose_pose light) (ps_pose car) = Return dl /\
    (forall (j : nat) (lj : TrafficLight), nth_error (lights self) j = Some lj ->
       exists dj : float,
         get_distance_between_poses (pose_pose lj) (ps_pose car) = Return dj /\
         (dj <? dl)%float = false) /\
    (forall (j : nat) (lj : TrafficLight) (dj : float),
       nth_error (lights self) j = Some lj ->
       get_distance_between_poses (pose_pose lj) (ps_pose car) = Return dj ->
       (dj =? dl)%float = true -> (kl <= j)%nat) /\
    In stop (stop_line_positions_poses self) /\
    get_distance_between_poses (pose_pose stop) (pose_pose light) = Return dsl /\
    get_distance_between_poses (pose_pose stop) (ps_pose car) = Return dsc /\
    (forall sj : TrafficLight, In sj (stop_line_positions_poses self) ->
       (exists dj : float,
          get_distance_between_poses (pose_pose sj) (pose_pose light) = Return dj /\
          (dj <? dsl)%float = false) /\
       (exists dj : float,
          get_distance_between_poses (pose_pose sj) (ps_pose car) = Return dj /\
          (dj <? dsc)%float = false)) /\
    wp = Z.of_nat kw /\ nth_error (lane_waypoints lane) kw = Some w /\
    get_distance_between_poses (pose_pose w) (pose_pose stop) = Return dw /\
    (forall (j : nat) (wj : Waypoint),
       nth_error (lane_waypoints lane) j = Some wj ->
       exists dj : float,
         get_distance_between_poses (pose_pose wj) (pose_pose stop) = Return dj /\
         (dj <? dw)%float = false) /\
    (forall (j : nat) (wj : Waypoint) (dj : float),
       nth_error (lane_waypoints lane) j = Some wj ->
       get_distance_between_poses (pose_pose wj) (pose_pose stop) = Return dj ->
       (dj =? dw)%float = true -> (kw <= j)%nat).
Proof.
  intros E Hwp.
  destruct (process_traffic_lights_searches self wp c E Hwp)
    as (car & lane & kl & ks & light & stop
        & Hcar & Hlane & Hli & Hl & Hsl & Hsc & Hs & Hwi & Hc).
  destruct (get_closest_waypoint_match_nearest _ _ _ Hli)
    as (kl' & light' & dl & Ekl & Hl' & Hdl & Hlmin & Hltie).
  apply Nat2Z.inj in Ekl. subst kl'. rewrite Hl in Hl'. injection Hl' as <-.
  destruct (get_closest_waypoint_match_nearest _ _ _ Hsl)
    as (k1 & stop1 & dsl & Ek1 & Hs1 & Hdsl & Hmin1 & _).
  apply Nat2Z.inj in Ek1. subst k1. rewrite Hs in Hs1. injection Hs1 as <-.
  destruct (get_closest_waypoint_match_nearest _ _ _ Hsc)
    as (k2 & stop2 & dsc & Ek2 & Hs2 & Hdsc & Hmin2 & _).
  apply Nat2Z.inj in Ek2. subst k2. rewrite Hs in Hs2. injection Hs2 as <-.
  destruct (get_closest_waypoint_match_nearest _ _ _ Hwi)
    as (kw & w & dw & -> & Hw & Hdw & Hwmin & Hwtie).
  exists car, lane, kl, kw, light, stop, w, dl, dsl, dsc, dw.
  split; [exact Hcar|]. split; [exact Hlane|]. split; [exact Hl|].
  split; [exact Hc|]. split; [exact Hdl|]. split; [exact Hlmin|].
  split; [exact Hltie|].
  split; [eapply nth_error_In; eassumption|].
  split; [exact Hdsl|]. split; [exact Hdsc|].
  split.
  { intros sj Hin. destruct (In_nth_error _ _ Hin) as [j Hj]. split; eauto. }
  split; [reflexivity|]. split; [exact Hw|]. split; [exact Hdw|].
  split; [exact Hwmin | exact Hwtie].
Qed.

Lemma process_traffic_lights_nearest_witness :
  exists (car : PoseStamped) (lane : Lane) (kl kw : nat)
         (light stop : TrafficLight) (w : Waypoint) (dl dsl dsc dw : float),
    pose (scenario RED) = Some car /\ waypoints (scenario RED) = Some lane /\
    nth_error (lights (scenario RED)) kl = Some light /\ RED = tl_state light /\
    get_distance_between_poses (pose_pose light) (ps_pose car) = Return dl /\
    (forall (j : nat) (lj : TrafficLight),
       nth_error (lights (scenario RED)) j = Some lj ->
       exists dj : float,
         get_distance_between_poses (pose_pose lj) (ps_pose car) = Return dj /\
         (dj <? dl)%float = false) /\
    (forall (j : nat) (lj : TrafficLight) (dj : float),
       nth_error (lights (scenario RED)) j = Some lj ->
       get_distance_between_poses (pose_pose lj) (ps_pose car) = Return dj ->
       (dj =? dl)%float = true -> (kl <= j)%nat) /\
    In stop (stop_line_positions_poses (scenario RED)) /\
    get_distance_between_poses (pose_pose stop) (pose_pose light) = Return dsl /\
    get_distance_between_poses (pose_pose stop) (ps_pose car) = Return dsc /\
    (forall sj : TrafficLight, In sj (stop_line_positions_poses (scenario RED)) ->
       (exists dj : float,
          get_distance_between_poses (pose_pose sj) (pose_pose light) = Return dj /\
          (dj <? dsl)%float = false) /\
       (exists dj : float,
          get_distance_between_poses (pose_pose sj) (ps_pose car) = Return dj /\
          (dj <? dsc)%float = false)) /\
    2 = Z.of_nat kw /\ nth_error (lane_waypoints lane) kw = Some w /\
    get_distance_between_poses (pose_pose w) (pose_pose stop) = Return dw /\
    (forall (j : nat) (wj : Waypoint),
       nth_error (lane_waypoints lane) j = Some wj ->
       exists dj : float,
         get_distance_between_poses (pose_pose wj) (pose_pose stop) = Return dj /\
         (dj <? dw)%float = false) /\
    (forall (j : nat) (wj : Waypoint) (dj : float),
       nth_error (lane_waypoints lane) j = Some wj ->
       get_distance_between_poses (pose_pose wj) (pose_pose stop) = Return dj ->
       (dj =? dw)%float = true -> (kw <= j)%nat).
Proof.
  apply (process_traffic_lights_nearest (scenario RED) 2 RED).
  - reflexivity.
  - discriminate.
Defined.
